(** * Record-keeping tools: expense tracker, habit tracker, to-do list

    A shallow embedding of the three scripts
    [Expense_Tracker_CLI.py], [Habit_Tracker.py] and
    [To-Do_List_Application.py], and the properties of their record
    stores, of the monthly report and of the streak computation.

    Every script keeps one list in memory, rewrites one JSON file on each
    change, reads lines from the terminal and reads the date from the
    system clock.  These four things and the lines printed make up the
    state a function runs in; a function of the scripts is a function from
    state to an outcome and a new state. *)

From Stdlib Require Import ZArith String Ascii List Sorted Lia PrimFloat FloatAxioms.
From stdpp Require Import base option list strings gmap pretty.

Local Open Scope string_scope.
Local Open Scope list_scope.
Local Open Scope Z_scope.

(** ** The Python runtime the scripts rely on *)

Module Py.

(** The built-in exceptions the modelled code can raise. *)
Inductive exn : Type :=
| EOFError        (* input() at the end of the terminal input *)
| ValueError      (* date.fromisoformat, list.remove; json.load, whose
                     JSONDecodeError is a ValueError *)
| KeyError        (* dict[key] on an absent key *)
| IndexError      (* list.pop out of range *)
| OverflowError.  (* date arithmetic leaving date.min .. date.max; an
                     index that does not fit the machine's index type *)

(** How a call ends: with a value, with an exception, or not within
    the bound the model puts on a [while] loop. *)
Inductive result (A : Type) : Type :=
| Return (a : A)
| Raise (e : exn)
| Diverge.
Arguments Return {A} a.
Arguments Raise {A} e.
Arguments Diverge {A}.

(** A printed line.  Text is kept as it is; where an f-string formats a
    float with [:.2f], or a date with [strftime], the line keeps the
    values and leaves the rendering of the digits out. *)
Inductive line : Type :=
| Text (s : string)
| Header (month year : Z)
    (* f"\n=== Expense Report for {today.strftime('%B %Y')} ===" *)
| Money (label : string) (amount : float) (tail : string).
    (* f"{label}${amount:.2f}{tail}" *)

(** The string ["\n"]. *)
Definition newline : string := String (ascii_of_nat 10) EmptyString.

(** [str.isspace] on one character, for the code points below 256. *)
Definition isspace (c : ascii) : bool :=
  let n := Z.of_N (N_of_ascii c) in
  ((9 <=? n) && (n <=? 13)) || ((28 <=? n) && (n <=? 32))
  || (n =? 133) || (n =? 160).

Fixpoint lstrip (s : string) : string :=
  match s with
  | EmptyString => EmptyString
  | String c s' => if isspace c then lstrip s' else s
  end.

Fixpoint rstrip (s : string) : string :=
  match s with
  | EmptyString => EmptyString
  | String c s' =>
      match rstrip s' with
      | EmptyString => if isspace c then EmptyString else String c EmptyString
      | r => String c r
      end
  end.

(** [str.strip()] *)
Definition strip (s : string) : string := rstrip (lstrip s).

(** Equality of floats as values (an object equals itself, which is how
    [list.remove] and [in] compare before they try [==]). *)
#[export] Instance float_eq_dec : EqDecision float.
Proof.
  intros x y. destruct (Leibniz.eqb x y) eqn:E.
  - left. apply Leibniz.eqb_spec. exact E.
  - right. intros H. apply Leibniz.eqb_spec in H. congruence.
Defined.

(** [l.remove(x)]: the first item equal to [x] is taken out; [None] when
    there is none (Python raises [ValueError]). *)
Fixpoint list_remove {A} `{EqDecision A} (x : A) (l : list A) : option (list A) :=
  match l with
  | [] => None
  | y :: l' =>
      if decide (y = x) then Some l'
      else match list_remove x l' with
           | Some r => Some (y :: r)
           | None => None
           end
  end.

(** [sys.maxsize] of a 64-bit build: the largest index, and the most
    items a list holds. *)
Definition PY_SSIZE_T_MAX : Z := 2 ^ 63 - 1.

(** [l.pop(index)]: the item at [index] is taken out and returned; a
    negative index counts from the end.  Out of range the list is left
    as it is and Python raises [IndexError], or [OverflowError] for an
    index that does not fit the index type.  A list of Python holds at
    most [PY_SSIZE_T_MAX] items, so an index within range always fits;
    the range is tested first, so that this holds for the lists here
    too. *)
Definition list_pop {A} (l : list A) (index : Z) : exn + (A * list A) :=
  let n := Z.of_nat (length l) in
  let i := if index <? 0 then index + n else index in
  if (0 <=? i) && (i <? n) then
    match l !! Z.to_nat i with
    | Some x => inr (x, delete (Z.to_nat i) l)
    | None => inl IndexError
    end
  else if (index <? - PY_SSIZE_T_MAX - 1) || (PY_SSIZE_T_MAX <? index) then
    inl OverflowError
  else inl IndexError.

End Py.
Import Py.

(** ** [datetime.date] *)

Module Datetime.

Record date : Type := Date { year : Z; month : Z; day : Z }.

#[export] Instance date_eq_dec : EqDecision date.
Proof. solve_decision. Defined.

#[export] Instance date_countable : Countable date :=
  inj_countable' (λ d, (year d, month d, day d))
                 (λ t, Date t.1.1 t.1.2 t.2) (λ d, match d with Date _ _ _ => eq_refl end).

Definition MINYEAR : Z := 1.
Definition MAXYEAR : Z := 9999.

Definition is_leap (y : Z) : bool :=
  (y mod 4 =? 0) && (negb (y mod 100 =? 0) || (y mod 400 =? 0)).

Definition DAYS_IN_MONTH : list Z :=
  [31; 28; 31; 30; 31; 30; 31; 31; 30; 31; 30; 31].

Definition days_in_month (y m : Z) : Z :=
  if (m =? 2) && is_leap y then 29
  else nth (Z.to_nat (m - 1)) DAYS_IN_MONTH 0.

(** The dates [date(year, month, day)] accepts; any other triple raises
    [ValueError]. *)
Definition valid (d : date) : bool :=
  (MINYEAR <=? year d) && (year d <=? MAXYEAR)
  && (1 <=? month d) && (month d <=? 12)
  && (1 <=? day d) && (day d <=? days_in_month (year d) (month d)).

(** [date.min] *)
Definition min : date := Date 1 1 1.

(** The day count of the proleptic Gregorian calendar,
    [date.toordinal()]: 0001-01-01 is day 1. *)
Definition days_before_year (y : Z) : Z :=
  let y := y - 1 in y * 365 + y / 4 - y / 100 + y / 400.

Definition DAYS_BEFORE_MONTH : list Z :=
  [0; 31; 59; 90; 120; 151; 181; 212; 243; 273; 304; 334].

Definition days_before_month (y m : Z) : Z :=
  nth (Z.to_nat (m - 1)) DAYS_BEFORE_MONTH 0
  + (if (2 <? m) && is_leap y then 1 else 0).

Definition toordinal (d : date) : Z :=
  days_before_year (year d) + days_before_month (year d) (month d) + day d.

(** [d - timedelta(days=1)]: the day before [d] in the calendar; [None]
    when [d] is [date.min] (Python raises [OverflowError]). *)
Definition sub_one_day (d : date) : option date :=
  if 1 <? day d then Some (Date (year d) (month d) (day d - 1))
  else if 1 <? month d then
    Some (Date (year d) (month d - 1) (days_in_month (year d) (month d - 1)))
  else if MINYEAR <? year d then Some (Date (year d - 1) 12 31)
  else None.

(** Decimal digits. *)
Definition digit (n : Z) : ascii := ascii_of_N (Z.to_N (48 + n mod 10)).

Definition digit_val (c : ascii) : option Z :=
  let n := Z.of_N (N_of_ascii c) in
  if (48 <=? n) && (n <=? 57) then Some (n - 48) else None.

(** [d.isoformat()], that is ["%04d-%02d-%02d" % (year, month, day)]. *)
Definition isoformat (d : date) : string :=
  String (digit (year d / 1000)) (String (digit (year d / 100))
  (String (digit (year d / 10)) (String (digit (year d))
  (String "-" (String (digit (month d / 10)) (String (digit (month d))
  (String "-" (String (digit (day d / 10)) (String (digit (day d))
  EmptyString))))))))).

(** [date.fromisoformat(s)] on the form [YYYY-MM-DD], the one
    [isoformat] writes; [None] stands for [ValueError].  (Later Python
    versions read some further ISO 8601 forms, which the scripts never
    write.) *)
Definition fromisoformat (s : string) : option date :=
  match s with
  | String y1 (String y2 (String y3 (String y4 (String "-"
    (String m1 (String m2 (String "-" (String d1 (String d2
    EmptyString))))))))) =>
      y1 ← digit_val y1; y2 ← digit_val y2;
      y3 ← digit_val y3; y4 ← digit_val y4;
      m1 ← digit_val m1; m2 ← digit_val m2;
      d1 ← digit_val d1; d2 ← digit_val d2;
      let d := Date (y1 * 1000 + y2 * 100 + y3 * 10 + y4)
                    (m1 * 10 + m2) (d1 * 10 + d2) in
      if valid d then Some d else None
  | _ => None
  end.

End Datetime.
Import Datetime.


(** ** The state a script runs in *)

Module World.

Section State_.
Context {A : Type}.

Record state : Type := State {
  mem : list A;          (* the list [main] loaded and hands to every function *)
  clock : date;          (* what [date.today()] returns *)
  stdin : list string;   (* the lines [input()] has still to read *)
  stdout : list line;    (* what was printed, oldest first *)
  disk : list A;         (* the content of the JSON file, decoded *)
  saves : nat            (* how often the file was opened for writing *)
}.

Definition M (B : Type) : Type := state → result B * state.

Definition ret {B} (b : B) : M B := λ s, (Return b, s).

Definition bind {B C} (m : M B) (f : B → M C) : M C :=
  λ s, match m s with
       | (Return b, s') => f b s'
       | (Raise e, s') => (Raise e, s')
       | (Diverge, s') => (Diverge, s')
       end.

Definition raise {B} (e : exn) : M B := λ s, (Raise e, s).

Definition gets {B} (f : state → B) : M B := λ s, (Return (f s), s).

Definition set_mem (l : list A) : M unit :=
  λ s, (Return tt, State l (clock s) (stdin s) (stdout s) (disk s) (saves s)).

(** [print(l)] *)
Definition print (l : line) : M unit :=
  λ s, (Return tt,
        State (mem s) (clock s) (stdin s) (stdout s ++ [l]) (disk s) (saves s)).

(** [input(prompt)]: the prompt is printed, one line is read;
    [EOFError] at the end of the input. *)
Definition input (prompt : string) : M string :=
  λ s, let out := stdout s ++ [Text prompt] in
       match stdin s with
       | [] => (Raise EOFError,
                State (mem s) (clock s) [] out (disk s) (saves s))
       | l :: rest => (Return l,
                State (mem s) (clock s) rest out (disk s) (saves s))
       end.

(** [date.today()] *)
Definition date_today : M date := gets clock.

(** [with FILE.open("w") as f: json.dump(l, f)]: the file is
    truncated and the whole list written. *)
Definition dump (l : list A) : M unit :=
  λ s, (Return tt,
        State (mem s) (clock s) (stdin s) (stdout s) l (S (saves s))).

End State_.
Arguments state A : clear implicits.
Arguments M A B : clear implicits.

#[export] Instance M_ret {A} : MRet (M A) := λ B, ret.
#[export] Instance M_bind {A} : MBind (M A) := λ B C f m, bind m f.
#[export] Instance M_fmap {A} : FMap (M A) :=
  λ B C f m, bind m (λ b, ret (f b)).

End World.
Import World.

(** ** To-Do_List_Application.py *)

Module Todo.

Section Functions.
(** The built-in [int(s)] on a string; [None] stands for [ValueError]. *)
Variable py_int : string → option Z.

Definition save_tasks (tasks : list string) : M string unit := dump tasks.

Definition add_task : M string unit :=
  new_task ← strip <$> input "Please enter new task: ";
  if decide (new_task = EmptyString) then
    print (Text "No new task added, please try again.")
  else
    tasks ← gets mem;
    set_mem (tasks ++ [new_task]);;
    tasks ← gets mem;
    save_tasks tasks;;
    print (Text (new_task +:+ " has been added to your To-Do List.")).

Definition remove_task (index : Z) : M string string :=
  tasks ← gets mem;
  match list_pop tasks index with
  | inl e => raise e
  | inr (removed, rest) =>
      set_mem rest;;
      tasks ← gets mem;
      save_tasks tasks;;
      mret removed
  end.

Fixpoint view_lines (i : nat) (tasks : list string) : M string unit :=
  match tasks with
  | [] => mret tt
  | task :: rest =>
      print (Text (pretty i +:+ ") " +:+ task));;
      view_lines (S i) rest
  end.

Definition view_tasks : M string unit :=
  tasks ← gets mem;
  match tasks with
  | [] => print (Text "Your To-Do list is empty")
  | _ => view_lines 1 tasks
  end.

Definition clear_list : M string unit :=
  set_mem [];;
  tasks ← gets mem;
  save_tasks tasks;;
  print (Text "Your To-Do list has been cleared.").

(** The branch of [main] for the action ["remove"]. *)
Definition main_remove : M string unit :=
  tasks ← gets mem;
  match tasks with
  | [] => print (Text "Your To-Do list is empty")
  | _ =>
      view_tasks;;
      remove_choice ← strip <$> input "Which number would you like removed?";
      match py_int remove_choice with
      | Some selected_choice =>
          let index := selected_choice - 1 in
          tasks ← gets mem;
          if (0 <=? index) && (index <? Z.of_nat (length tasks)) then
            removed ← remove_task index;
            print (Text ("'" +:+ removed +:+ "' has been removed."))
          else print (Text "Invalid number. Please try again.")
      | None => print (Text "Please enter a valid number")
      end
  end.

End Functions.

End Todo.

(** ** Habit_Tracker.py *)

Module Habit.

(** A habit, as [HABIT_MODEL] lays it out. *)
Record record : Type := Habit_ {
  id : Z;
  name : string;
  created_on : string;             (* the key "created on" *)
  completed_dates : list string
}.

#[export] Instance habit_eq_dec : EqDecision record.
Proof. solve_decision. Defined.

Definition save_habits (tracked_habits : list record) : M record unit :=
  dump tracked_habits.

Definition get_next_id (tracked_habits : list record) : Z :=
  match tracked_habits with
  | [] => 1
  | habit :: rest => fold_left Z.max (id <$> rest) (id habit) + 1
  end.

Definition add_habit : M record unit :=
  habit_name ← strip <$> input "Please enter the habit's name: ";
  tracked_habit ← gets mem;
  today ← date_today;
  let new_habit :=
    {| id := get_next_id tracked_habit;
       name := habit_name;
       created_on := isoformat today;
       completed_dates := [] |} in
  set_mem (tracked_habit ++ [new_habit]);;
  tracked_habit ← gets mem;
  save_habits tracked_habit.

(** The [for] loop of [delete_habit], over what is left to visit. *)
Fixpoint delete_loop (habit_id : Z) (remaining : list record)
  : M record (option record) :=
  match remaining with
  | [] => mret None
  | habit :: remaining' =>
      if decide (id habit = habit_id) then
        tracked_habits ← gets mem;
        match list_remove habit tracked_habits with
        | None => raise ValueError
        | Some rest =>
            set_mem rest;;
            tracked_habits ← gets mem;
            save_habits tracked_habits;;
            mret (Some habit)
        end
      else delete_loop habit_id remaining'
  end.

Definition delete_habit (habit_id : Z) : M record (option record) :=
  tracked_habits ← gets mem;
  delete_loop habit_id tracked_habits.

Definition clear_habits : M record unit :=
  set_mem [];;
  habits ← gets mem;
  save_habits habits;;
  print (Text "Your current habits have been cleared.").

(** [habit['completed_dates'].append(today_str)] on the habit at
    position [i] of the list. *)
Definition append_completed (i : nat) (today_str : string) : M record unit :=
  tracked_habits ← gets mem;
  set_mem (alter (λ h, Habit_ (id h) (name h) (created_on h)
                         (completed_dates h ++ [today_str]))
                 i tracked_habits).

(** The [for] loop of [mark_complete]; [i] is the position of the
    first habit of [remaining] in the list.  [True], [False] and [None]
    are [Some true], [Some false] and [None]. *)
Fixpoint mark_loop (habit_id : Z) (i : nat) (remaining : list record)
  : M record (option bool) :=
  match remaining with
  | [] => mret None
  | habit :: remaining' =>
      if decide (id habit = habit_id) then
        today ← date_today;
        let today_str := isoformat today in
        if decide (today_str ∈ completed_dates habit) then mret (Some false)
        else
          append_completed i today_str;;
          tracked_habits ← gets mem;
          save_habits tracked_habits;;
          mret (Some true)
      else mark_loop habit_id (S i) remaining'
  end.

Definition mark_complete (habit_id : Z) : M record (option bool) :=
  tracked_habits ← gets mem;
  mark_loop habit_id 0 tracked_habits.

(** The [while] loop of [get_streak].  Every turn that goes on finds a
    day of the set that no later turn finds again, so [bound] is the
    size of the set and one more. *)
Fixpoint streak_loop (bound : nat) (completed_set : gset date)
    (streak : nat) (current_day : date) : M record nat :=
  match bound with
  | O => λ s, (Diverge, s)
  | S bound' =>
      if decide (current_day ∈ completed_set) then
        match sub_one_day current_day with
        | None => raise OverflowError
        | Some previous => streak_loop bound' completed_set (S streak) previous
        end
      else mret streak
  end.

Definition get_streak (habit : record) : M record nat :=
  match mapM fromisoformat (completed_dates habit) with
  | None => raise ValueError
  | Some dates =>
      let completed_set : gset date := list_to_set dates in
      today ← date_today;
      streak_loop (S (size completed_set)) completed_set 0 today
  end.

End Habit.

(** ** Expense_Tracker_CLI.py *)

Module Expense.

Definition CATEGORIES : list string :=
  ["Housing"; "Food"; "Transportation"; "Utilities"; "Healthcare";
   "Savings"; "Debt"; "Shopping"; "Entertainment"].

(** An expense, as [EXPENSE_MODEL] lays it out. *)
Record record : Type := Expense_ {
  id : Z;
  name : string;
  amount : float;
  category : string;
  created_on : string;             (* the key "created on" *)
  notes : list string
}.

#[export] Instance expense_eq_dec : EqDecision record.
Proof. solve_decision. Defined.

Section Functions.
(** The built-in [float(s)] on a string ([None] stands for
    [ValueError]) and [str.title]. *)
Variable py_float : string → option float.
Variable title : string → string.

Definition save_to_expense (tracked_expense : list record) : M record unit :=
  dump tracked_expense.

Definition get_next_id (tracked_expense : list record) : Z :=
  match tracked_expense with
  | [] => 1
  | expense :: rest => fold_left Z.max (id <$> rest) (id expense) + 1
  end.

(** The two [while True] loops of [add_expense]; [pending] is the
    terminal input not read yet, of which every turn reads a line. *)
Fixpoint amount_loop (pending : list string) : M record float :=
  raw_amount ← strip <$> input "Please enter the amount: ";
  match pending with
  | [] => raise EOFError
  | _ :: pending' =>
      match py_float raw_amount with
      | Some expense_amount =>
          if (expense_amount <? 0)%float then
            print (Text "Amounts cannot be negative.");;
            amount_loop pending'
          else mret expense_amount
      | None =>
          print (Text "Please enter a valid number (example: 12.50)");;
          amount_loop pending'
      end
  end.

Fixpoint category_loop (pending : list string) : M record string :=
  expense_category ←
    (λ s, title (strip s)) <$>
    input "Category Types: Housing, Food, Transportation, Utilities, Healthcare, Savings, Debt, Shopping, or Entertainment ";
  match pending with
  | [] => raise EOFError
  | _ :: pending' =>
      if decide (expense_category ∈ CATEGORIES) then mret expense_category
      else
        print (Text "Invalid category. PLease try again.");;
        category_loop pending'
  end.

Definition add_expense : M record unit :=
  expense_name ← strip <$> input "Please enter the name of the expense: ";
  pending ← gets stdin;
  expense_amount ← amount_loop pending;
  pending ← gets stdin;
  expense_category ← category_loop pending;
  tracked_expense ← gets mem;
  today ← date_today;
  let new_expense :=
    {| id := get_next_id tracked_expense;
       name := expense_name;
       amount := expense_amount;
       category := expense_category;
       created_on := isoformat today;
       notes := [] |} in
  set_mem (tracked_expense ++ [new_expense]);;
  tracked_expense ← gets mem;
  save_to_expense tracked_expense.

(** The [for] loop of [delete_expense], over what is left to visit. *)
Fixpoint delete_loop (expense_id : Z) (remaining : list record)
  : M record (option record) :=
  match remaining with
  | [] => mret None
  | expense :: remaining' =>
      if decide (id expense = expense_id) then
        tracked_expense ← gets mem;
        match list_remove expense tracked_expense with
        | None => raise ValueError
        | Some rest =>
            set_mem rest;;
            tracked_expense ← gets mem;
            save_to_expense tracked_expense;;
            mret (Some expense)
        end
      else delete_loop expense_id remaining'
  end.

Definition delete_expense (expense_id : Z) : M record (option record) :=
  tracked_expense ← gets mem;
  delete_loop expense_id tracked_expense.

Definition clear_all_expense : M record unit :=
  set_mem [];;
  expense ← gets mem;
  save_to_expense expense;;
  print (Text "All expenses have been cleared.").

(** The [for] loop of [view_monthly_report] over the expenses. *)
Fixpoint totals_loop (current_month current_year : Z)
    (remaining : list record)
    (category_totals : gmap string float) (total_spent : float)
  : M record (gmap string float * float) :=
  match remaining with
  | [] => mret (category_totals, total_spent)
  | expense :: remaining' =>
      match fromisoformat (created_on expense) with
      | None => raise ValueError
      | Some expense_date =>
          if (month expense_date =? current_month)
             && (year expense_date =? current_year) then
            let category := category expense in
            let amount := amount expense in
            match category_totals !! category with
            | None => raise KeyError
            | Some total =>
                totals_loop current_month current_year remaining'
                  (<[category := (total + amount)%float]> category_totals)
                  (total_spent + amount)%float
            end
          else
            totals_loop current_month current_year remaining'
              category_totals total_spent
      end
  end.

(** The [for] loop over [CATEGORIES] that prints the totals. *)
Fixpoint print_loop (categories : list string)
    (category_totals : gmap string float) : M record unit :=
  match categories with
  | [] => mret tt
  | category :: categories' =>
      match category_totals !! category with
      | None => raise KeyError
      | Some total =>
          print (Money (category +:+ ": ") total EmptyString);;
          print_loop categories' category_totals
      end
  end.

Definition view_monthly_report : M record unit :=
  tracked_expense ← gets mem;
  match tracked_expense with
  | [] => print (Text "No expenses recorded yet.")
  | _ =>
      today ← date_today;
      let current_month := month today in
      let current_year := year today in
      let category_totals : gmap string float :=
        list_to_map ((λ category, (category, 0%float)) <$> CATEGORIES) in
      let total_spent := 0%float in
      '(category_totals, total_spent) ←
        totals_loop current_month current_year tracked_expense
                    category_totals total_spent;
      print (Header (month today) (year today));;
      print (Money "Total spent this month: " total_spent newline);;
      print_loop CATEGORIES category_totals
  end.

End Functions.

End Expense.

(** ** The contracts of the record store, in the specification's words *)

Module Store.

(** [nextId]: 1 for an empty collection, else the highest id plus 1. *)
Definition nextId (ids : list Z) : Z :=
  match ids with
  | [] => 1
  | i :: rest => foldr Z.max i rest + 1
  end.

(** The highest id of a collection. *)
Definition highest (ids : list Z) : option Z :=
  match ids with
  | [] => None
  | i :: rest => Some (foldr Z.max i rest)
  end.

(** The calls of a run of inserts and deletes. *)
Inductive command : Type :=
| Insert
| Remove (i : Z).

Section Runs.
Context {R : Type} (rid : R → Z).

(** [removeById]: scan in order, take out the first record whose id
    matches, persist, return the record; otherwise report "not found"
    and leave memory and file alone. *)
Definition removeById (i : Z) : M R (option R) :=
  λ s, match list_find (λ r, rid r = i) (mem s) with
       | Some (k, r) =>
           let rest := delete k (mem s) in
           (Return (Some r),
            State rest (clock s) (stdin s) (stdout s) rest (S (saves s)))
       | None => (Return None, s)
       end.

Variable insert : M R unit.
Variable remove : Z → M R (option R).

(** The ids given to the records the inserts of a run append, in
    order.  The run ends where a call raises. *)
Fixpoint assigned (cs : list command) (s : state R) : list Z :=
  match cs with
  | [] => []
  | Insert :: cs' =>
      match insert s with
      | (Return _, s') =>
          match last (mem s') with
          | Some r => rid r :: assigned cs' s'
          | None => assigned cs' s'
          end
      | _ => []
      end
  | Remove i :: cs' =>
      match remove i s with
      | (Return _, s') => assigned cs' s'
      | _ => []
      end
  end.

(** No delete of the run asks for the id that is the highest of the
    store at that moment. *)
Fixpoint spares_highest (cs : list command) (s : state R) : bool :=
  match cs with
  | [] => true
  | Insert :: cs' =>
      match insert s with
      | (Return _, s') => spares_highest cs' s'
      | _ => true
      end
  | Remove i :: cs' =>
      bool_decide (highest (rid <$> mem s) ≠ Some i)
      && match remove i s with
         | (Return _, s') => spares_highest cs' s'
         | _ => true
         end
  end.

(** The contract of [get_next_id] and of the ids of a run. *)
Definition next_id_contract (get_next_id : list R → Z) : Prop :=
  (∀ l, get_next_id l = nextId (rid <$> l))
  ∧ (∀ l r, r ∈ l → rid r < get_next_id l)
  ∧ (∀ s s', insert s = (Return tt, s') →
       ∃ r, mem s' = mem s ++ [r] ∧ rid r = get_next_id (mem s))
  ∧ (∀ cs s, spares_highest cs s = true →
       StronglySorted Z.lt (assigned cs s)
       ∧ ∀ a, a ∈ assigned cs s → ∀ r, r ∈ mem s → rid r < a).

End Runs.

(** Marking a day on the first habit with the id: "already recorded"
    ([False]) leaves everything alone, "newly recorded" ([True]) appends
    the day to the habit's dates and persists, and [None] reports that
    no habit has the id. *)
Definition markCompletion (habit_id : Z) : M Habit.record (option bool) :=
  λ s, match list_find (λ h, Habit.id h = habit_id) (mem s) with
       | None => (Return None, s)
       | Some (k, h) =>
           let day := isoformat (clock s) in
           if decide (day ∈ Habit.completed_dates h) then
             (Return (Some false), s)
           else
             let h' := Habit.Habit_ (Habit.id h) (Habit.name h)
                         (Habit.created_on h)
                         (Habit.completed_dates h ++ [day]) in
             let l := <[k := h']> (mem s) in
             (Return (Some true),
              State l (clock s) (stdin s) (stdout s) l (S (saves s)))
       end.

(** A completion is recorded for the day with the day count [k]. *)
Definition completed_on (dates : list date) (k : Z) : Prop :=
  ∃ d, d ∈ dates ∧ toordinal d = k.

(** [n] is the streak: today and the [n - 1] days before it are
    recorded, and the day before those is a day of the calendar that is
    not. *)
Definition is_streak (dates : list date) (today : date) (n : nat) : Prop :=
  (∀ i, 0 ≤ i < Z.of_nat n → completed_on dates (toordinal today - i))
  ∧ 1 ≤ toordinal today - Z.of_nat n
  ∧ ¬ completed_on dates (toordinal today - Z.of_nat n).

(** The expense was created in the month and year of [today]. *)
Definition in_month (today : date) (e : Expense.record) : bool :=
  match fromisoformat (Expense.created_on e) with
  | Some d => (month d =? month today) && (year d =? year today)
  | None => false
  end.

Definition monthly (today : date) (es : list Expense.record)
  : list Expense.record :=
  filter (λ e, in_month today e = true) es.

Definition of_category (c : string) (es : list Expense.record)
  : list Expense.record :=
  filter (λ e, Expense.category e = c) es.

(** The amounts added up in the order of the list, onto [start]. *)
Definition total_from (start : float) (es : list Expense.record) : float :=
  fold_left (λ t e, (t + Expense.amount e)%float) es start.

(** The monthly report: the grand total, then one total for every
    category, in the order of [CATEGORIES]. *)
Definition report (today : date) (es : list Expense.record) : list line :=
  [Header (month today) (year today);
   Money "Total spent this month: " (total_from 0 (monthly today es)) newline]
  ++ ((λ c, Money (c +:+ ": ")
              (total_from 0 (of_category c (monthly today es))) EmptyString)
      <$> Expense.CATEGORIES).

(** An expense as [add_expense] builds it: a category of the
    enumeration and a date in ISO form. *)
Definition well_formed (e : Expense.record) : Prop :=
  Expense.category e ∈ Expense.CATEGORIES
  ∧ is_Some (fromisoformat (Expense.created_on e)).

(** [s] with [out] printed. *)
Definition printed {R} (s : state R) (out : list line) : state R :=
  State (mem s) (clock s) (stdin s) (stdout s ++ out) (disk s) (saves s).

(** After a mutation: the file holds the list in memory, and was
    written once more. *)
Definition persisted {R} (s s' : state R) : Prop :=
  disk s' = mem s' ∧ saves s' = S (saves s).

(** [s'] differs from [s] in the terminal only. *)
Definition same_store {R} (s s' : state R) : Prop :=
  mem s' = mem s ∧ clock s' = clock s ∧ disk s' = disk s
  ∧ saves s' = saves s.

(** [s'] differs from [s] in the lines printed only. *)
Definition printed_only {R} (s s' : state R) : Prop :=
  same_store s s' ∧ stdin s' = stdin s.

End Store.
Import Store.

(** ** Sample data *)

Module Sample.

(** [int] on a string of decimal digits. *)
Fixpoint digits_value (acc : Z) (s : string) : option Z :=
  match s with
  | EmptyString => Some acc
  | String c s' =>
      match digit_val c with
      | Some v => digits_value (acc * 10 + v) s'
      | None => None
      end
  end.

Definition int_of_digits (s : string) : option Z :=
  match s with
  | EmptyString => None
  | _ => digits_value 0 s
  end.

(** A habit tracker that starts empty, with three names typed. *)
Definition habit_start : state Habit.record :=
  State [] (Date 2026 2 25) ["run"; "read"; "swim"] [] [] 0.

(** Three days in a row up to the first of March. *)
Definition march_dates : list date :=
  [Date 2026 3 1; Date 2026 2 28; Date 2026 2 27].

Definition walk : Habit.record :=
  Habit.Habit_ 2 "walk" "2026-01-01" (isoformat <$> march_dates).

Definition read : Habit.record :=
  Habit.Habit_ 1 "read" "2026-01-01" [].

Definition march_first : state Habit.record :=
  State [read; walk] (Date 2026 3 1) [] [] [read; walk] 0.

(** A habit marked on 0001-01-01, looked at on that day. *)
Definition first_day_habit : Habit.record :=
  Habit.Habit_ 1 "walk" "0001-01-01" ["0001-01-01"].

Definition first_day : state Habit.record :=
  State [first_day_habit] Datetime.min [] [] [first_day_habit] 0.

(** The expenses of the aggregation example: two of this month, one of
    the month before. *)
Definition expenses : list Expense.record :=
  [Expense.Expense_ 1 "Groceries" 10 "Food" "2026-02-03" [];
   Expense.Expense_ 2 "Lunch" 5 "Food" "2026-01-17" [];
   Expense.Expense_ 3 "Rent" 20 "Housing" "2026-02-01" []].

Definition in_february : state Expense.record :=
  State expenses (Date 2026 2 25) [] [] expenses 0.

Definition later_in_february : state Expense.record :=
  State expenses (Date 2026 2 28) [] [Text "earlier output"] expenses 3.

Definition in_march : state Expense.record :=
  State expenses (Date 2026 3 25) [] [] expenses 0.

Definition no_expenses : state Expense.record :=
  State [] (Date 2026 2 25) [] [] [] 0.

(** Two tasks, and the number 6 typed at the prompt of "remove". *)
Definition two_tasks : state string :=
  State ["shop"; "cook"] (Date 2026 2 25) ["6"] [] ["shop"; "cook"] 0.

End Sample.
Import Sample.

(** ** The menus and the main loops *)

Module Cli.

(** [str.lower] on one character, for the code points below 256. *)
Definition lower_char (c : ascii) : ascii :=
  let n := Z.of_N (N_of_ascii c) in
  if ((65 <=? n) && (n <=? 90))
     || ((192 <=? n) && (n <=? 222) && negb (n =? 215))
  then ascii_of_N (Z.to_N (n + 32))
  else c.

(** [str.lower()] *)
Fixpoint lower (s : string) : string :=
  match s with
  | EmptyString => EmptyString
  | String c s' => String (lower_char c) (lower s')
  end.

(** [input(prompt).strip().lower()] *)
Definition input_choice {A} (prompt : string) : M A string :=
  (λ s, lower (strip s)) <$> input prompt.

(** What a script finds where it keeps its list.  [Holds]: the file is
    there and [json.load] decodes it to the list [disk].  [Undecodable]:
    the file is there and its text is not JSON, so that [json.load] raises
    [json.JSONDecodeError], which is a [ValueError].  [Missing]: there is
    no file.  (JSON of another shape than a list of records has no place
    in the types here.) *)
Inductive file : Type := Missing | Undecodable | Holds.

(** [FILE.exists()] *)
Definition file_exists (f : file) : bool :=
  match f with
  | Missing => false
  | _ => true
  end.

(** [json.load(f)] on the file, which is there by then. *)
Definition json_load {A} (f : file) : M A (list A) :=
  match f with
  | Undecodable => raise ValueError
  | _ => gets disk
  end.



(** The exceptions a call may end with. *)
Definition ends {B} (allowed : list exn) (r : result B) : Prop :=
  match r with
  | Return _ => True
  | Raise e => e ∈ allowed
  | Diverge => False
  end.

(** A call from a state in [I] ends in [I], with a value or with one of
    the exceptions [allowed]. *)
Definition keeps {A B} (I : state A → Prop) (allowed : list exn)
    (m : M A B) : Prop :=
  ∀ s, I s → I (m s).2 ∧ ends allowed (m s).1.

(** The file holds the list in memory. *)
Definition in_sync {A} (s : state A) : Prop := disk s = mem s.








End Cli.
Import Cli.

Module TodoCLI.

Definition APP_NAME : string := "To-Do List Application".
Definition APP_VERSION : string := "0.1.0".

Definition COMMANDS : gmap string string :=
  list_to_map
    [("a", "add"); ("add", "add");
     ("b", "remove"); ("remove", "remove");
     ("c", "view"); ("view", "view");
     ("d", "clear"); ("clear", "clear");
     ("e", "exit"); ("exit", "exit")].

Definition show_menu : M string unit :=
  print (Text (newline +:+ APP_NAME +:+ " v" +:+ APP_VERSION));;
  print (Text "Please make a choice from the menu: ");;
  print (Text "A) Add.");;
  print (Text "B) Remove.");;
  print (Text "C) View.");;
  print (Text "D) Clear.");;
  print (Text "E) Exit.").

Definition get_menu_choice : M string string := input_choice "Choice: ".

Definition get_action : M string string :=
  choice ← get_menu_choice;
  match COMMANDS !! choice with
  | Some action => mret action
  | None =>
      print (Text "Invalid option, please try again.");;
      mret EmptyString
  end.

(** The branch of [main] for the action ["clear"]. *)
Definition main_clear : M string unit :=
  clear_confirm ←
    input_choice "Are you sure you want to clear the To-Do list? You can't undo this action! Y/N: ";
  if decide (clear_confirm = "y") then Todo.clear_list else mret tt.

Section Main.
Variable py_int : string → option Z.

(** The [while True] loop of [main]; [pending] is the terminal input
    not read yet, of which every turn reads a line. *)
Fixpoint main_loop (pending : list string) : M string unit :=
  show_menu;;
  action ← get_action;
  match pending with
  | [] => raise EOFError
  | _ :: pending' =>
      if decide (action = EmptyString) then main_loop pending'
      else if decide (action = "add") then
        Todo.add_task;; main_loop pending'
      else if decide (action = "remove") then
        Todo.main_remove py_int;; main_loop pending'
      else if decide (action = "view") then
        Todo.view_tasks;; main_loop pending'
      else if decide (action = "clear") then
        main_clear;; main_loop pending'
      else if decide (action = "exit") then
        print (Text ("Thank you for using " +:+ APP_NAME +:+ " v" +:+ APP_VERSION))
      else main_loop pending'
  end.

(** [main()]; [f] tells what is in the place of [tasks.json]. *)
Definition main (f : file) : M string unit :=
  (if file_exists f then mret tt else dump []);;
  task_file ← json_load f;
  set_mem task_file;;
  pending ← gets stdin;
  main_loop pending.

End Main.

End TodoCLI.

Module HabitCLI.

Definition APP_NAME : string := "Habit Tracker".
Definition APP_VERSION : string := "0.1.0".

Definition COMMANDS : gmap string string :=
  list_to_map
    [("1", "add"); ("add", "add");
     ("2", "delete"); ("delete", "delete");
     ("3", "view"); ("view", "view");
     ("4", "clear"); ("clear", "clear");
     ("5", "mark"); ("mark", "mark"); ("mark complete", "mark");
     ("6", "exit"); ("exit", "exit")].

(** The [for] loop of [view_habits]. *)
Fixpoint view_loop (remaining : list Habit.record) : M Habit.record unit :=
  match remaining with
  | [] => mret tt
  | habit :: remaining' =>
      streak ← Habit.get_streak habit;
      print (Text ("(" +:+ pretty (Habit.id habit) +:+ ") "
                   +:+ Habit.name habit +:+ " - Streak: " +:+ pretty streak));;
      view_loop remaining'
  end.

Definition view_habits : M Habit.record unit :=
  tracked_habits ← gets mem;
  match tracked_habits with
  | [] => print (Text "You are not currently tracking any habits.")
  | _ => view_loop tracked_habits
  end.

Definition show_menu : M Habit.record unit :=
  print (Text (newline +:+ APP_NAME +:+ " v" +:+ APP_VERSION));;
  print (Text "Please make a choice from the menu: ");;
  print (Text "1) Add.");;
  print (Text "2) Delete.");;
  print (Text "3) View.");;
  print (Text "4) Clear.");;
  print (Text "5) Mark Complete");;
  print (Text "6) Exit.").

Definition get_menu_choice : M Habit.record string := input_choice "Choice: ".

Definition get_action : M Habit.record string :=
  choice ← get_menu_choice;
  match COMMANDS !! choice with
  | Some action => mret action
  | None =>
      print (Text "Invalid option, please try again.");;
      mret EmptyString
  end.

Section Main.
Variable py_int : string → option Z.

(** The branch of [main] for the action ["delete"]. *)
Definition main_delete : M Habit.record unit :=
  habits ← gets mem;
  match habits with
  | [] => print (Text "You have no added habits.")
  | _ =>
      view_habits;;
      remove_choice ← strip <$> input "Enter the habit ID to remove: ";
      match py_int remove_choice with
      | None => print (Text "Please enter a valid ID.")
      | Some habit_id =>
          removed ← Habit.delete_habit habit_id;
          match removed with
          | None => print (Text "No habit found with that ID.")
          | Some habit => print (Text ("Removed: " +:+ Habit.name habit))
          end
      end
  end.

(** The branch of [main] for the action ["clear"]. *)
Definition main_clear : M Habit.record unit :=
  clear_confirm ←
    input_choice "Are you sure you want to clear ALL current habits? You can't undo this action! Y/N: ";
  if decide (clear_confirm = "y") then Habit.clear_habits else mret tt.

(** The branch of [main] for the action ["mark"]. *)
Definition main_mark : M Habit.record unit :=
  habits ← gets mem;
  match habits with
  | [] => print (Text "You have no habits to mark")
  | _ =>
      view_habits;;
      mark_choice ← strip <$> input "Please enter the habit's ID: ";
      match py_int mark_choice with
      | None => print (Text "Please enter a valid ID.")
      | Some habit_id =>
          result ← Habit.mark_complete habit_id;
          match result with
          | Some true => print (Text "Marked completed for today.")
          | Some false => print (Text "Already marked completed today.")
          | None => print (Text "No habit found with that ID.")
          end
      end
  end.

Fixpoint main_loop (pending : list string) : M Habit.record unit :=
  show_menu;;
  action ← get_action;
  match pending with
  | [] => raise EOFError
  | _ :: pending' =>
      if decide (action = EmptyString) then main_loop pending'
      else if decide (action = "add") then
        Habit.add_habit;; main_loop pending'
      else if decide (action = "delete") then
        main_delete;; main_loop pending'
      else if decide (action = "view") then
        view_habits;; main_loop pending'
      else if decide (action = "clear") then
        main_clear;; main_loop pending'
      else if decide (action = "mark") then
        main_mark;; main_loop pending'
      else if decide (action = "exit") then
        print (Text ("Thank you for using " +:+ APP_NAME +:+ " v" +:+ APP_VERSION))
      else main_loop pending'
  end.

(** [main()]; [f] tells what is in the place of [habits.json]. *)
Definition main (f : file) : M Habit.record unit :=
  (if file_exists f then mret tt else dump []);;
  habits ← json_load f;
  set_mem habits;;
  pending ← gets stdin;
  main_loop pending.

End Main.

End HabitCLI.

Module ExpenseCLI.

Definition APP_NAME : string := "Expense Tracker CLI".
Definition APP_VERSION : string := "0.1.0".

Definition INIT_COMMANDS : gmap string string :=
  list_to_map
    [("a", "add"); ("add", "add"); ("add expense", "add");
     ("b", "delete"); ("delete", "delete"); ("delete expense", "delete");
     ("c", "report"); ("report", "report"); ("report expenses", "report");
     ("see expenses", "report"); ("view expenses", "report");
     ("d", "exit"); ("exit", "exit")].

Definition ADD_COMMANDS : gmap string string :=
  list_to_map
    [("a", "add"); ("add", "add"); ("add expense", "add");
     ("b", "back"); ("back", "back"); ("go back", "back")].

Definition DEL_COMMANDS : gmap string string :=
  list_to_map
    [("a", "delete"); ("delete", "delete"); ("delete specific", "delete");
     ("delete specific expense", "delete");
     ("b", "clear"); ("clear", "clear"); ("clear all", "clear");
     ("clear all expenses", "clear");
     ("c", "back"); ("back", "back"); ("go back", "back")].

Definition main_menu : M Expense.record unit :=
  print (Text (newline +:+ APP_NAME +:+ " v" +:+ APP_VERSION));;
  print (Text "Please make a choice from the menu: ");;
  print (Text "A) Add Expense.");;
  print (Text "B) Delete Expense.");;
  print (Text "C) View Report.");;
  print (Text "D) Exit.").

Definition add_menu : M Expense.record unit :=
  print (Text (newline +:+ " You are viewing the 'Add Expense' menu"));;
  print (Text "Please make a choice from the menu: ");;
  print (Text "A) Add Expense");;
  print (Text "B) Go Back").

Definition del_menu : M Expense.record unit :=
  print (Text (newline +:+ " You are viewing the 'Delete Expense' menu"));;
  print (Text "Please make a choice from the menu: ");;
  print (Text "A) Delete Specific Expense");;
  print (Text "B) Clear All Expenses");;
  print (Text "C) Go back").

Definition get_init_choice : M Expense.record string := input_choice "Choice: ".
Definition get_add_choice : M Expense.record string := input_choice "Choice: ".
Definition get_del_choice : M Expense.record string := input_choice "Choice: ".

(** [get_init_action], [get_add_action] and [get_del_action] differ in
    the table they look the choice up in. *)
Definition get_action_in (commands : gmap string string)
    (get_choice : M Expense.record string) : M Expense.record string :=
  choice ← get_choice;
  match commands !! choice with
  | Some action => mret action
  | None =>
      print (Text "Invalid option, please try again.");;
      mret EmptyString
  end.

Definition get_init_action : M Expense.record string :=
  get_action_in INIT_COMMANDS get_init_choice.
Definition get_add_action : M Expense.record string :=
  get_action_in ADD_COMMANDS get_add_choice.
Definition get_del_action : M Expense.record string :=
  get_action_in DEL_COMMANDS get_del_choice.

Section Main.
Variable py_int : string → option Z.
Variable py_float : string → option float.
Variable title : string → string.
(** [str(x)] on a float, as an f-string writes it. *)
Variable str_float : float → string.

(** The [for] loop of [view_expense]. *)
Fixpoint view_loop (remaining : list Expense.record) : M Expense.record unit :=
  match remaining with
  | [] => mret tt
  | expense :: remaining' =>
      print (Text ("(" +:+ pretty (Expense.id expense) +:+ ") ("
                   +:+ Expense.name expense +:+ ") - Amount: ("
                   +:+ str_float (Expense.amount expense) +:+ ")"));;
      view_loop remaining'
  end.

Definition view_expense : M Expense.record unit :=
  tracked_expense ← gets mem;
  match tracked_expense with
  | [] => print (Text "You have no expenses saved.")
  | _ => view_loop tracked_expense
  end.

(** The [while True] loop of the "Add Expense" menu. *)
Fixpoint add_loop (pending : list string) : M Expense.record unit :=
  add_menu;;
  action ← get_add_action;
  match pending with
  | [] => raise EOFError
  | _ :: pending' =>
      if decide (action = EmptyString) then add_loop pending'
      else if decide (action = "add") then
        Expense.add_expense py_float title;; add_loop pending'
      else if decide (action = "back") then mret tt
      else add_loop pending'
  end.

(** The branch of the "Delete Expense" menu for the action ["delete"]. *)
Definition del_delete : M Expense.record unit :=
  expense ← gets mem;
  match expense with
  | [] => print (Text "You have no expenses saved.")
  | _ =>
      view_expense;;
      remove_choice ← input "Please enter the specific ID to remove: ";
      match py_int remove_choice with
      | None => print (Text "Please enter a valid ID")
      | Some expense_id =>
          removed ← Expense.delete_expense expense_id;
          match removed with
          | None => print (Text "No expense found with that ID.")
          | Some r => print (Text ("Removed: " +:+ Expense.name r))
          end
      end
  end.

(** The [while True] loop of the "Delete Expense" menu. *)
Fixpoint del_loop (pending : list string) : M Expense.record unit :=
  del_menu;;
  action ← get_del_action;
  match pending with
  | [] => raise EOFError
  | _ :: pending' =>
      if decide (action = EmptyString) then del_loop pending'
      else if decide (action = "delete") then
        del_delete;; del_loop pending'
      else if decide (action = "clear") then
        Expense.clear_all_expense;; del_loop pending'
      else if decide (action = "back") then mret tt
      else del_loop pending'
  end.

Fixpoint main_loop (pending : list string) : M Expense.record unit :=
  main_menu;;
  action ← get_init_action;
  match pending with
  | [] => raise EOFError
  | _ :: pending' =>
      if decide (action = EmptyString) then main_loop pending'
      else if decide (action = "add") then
        (pending ← gets stdin; add_loop pending);; main_loop pending'
      else if decide (action = "delete") then
        (pending ← gets stdin; del_loop pending);; main_loop pending'
      else if decide (action = "report") then
        Expense.view_monthly_report;; main_loop pending'
      else if decide (action = "exit") then
        print (Text ("Thanks for using " +:+ APP_NAME +:+ " v" +:+ APP_VERSION))
      else main_loop pending'
  end.

(** [main()]; [f] tells what is in the place of [expenses.json]. *)
Definition main (f : file) : M Expense.record unit :=
  (if file_exists f then mret tt else dump []);;
  expense ← json_load f;
  set_mem expense;;
  pending ← gets stdin;
  main_loop pending.

End Main.

End ExpenseCLI.


(** A session that adds an expense: the name, the amount and the
    category as typed, with [float] and [str.title] on these lines. *)
Module AddingLunch.

Definition py_float (s : string) : option float :=
  if decide (s = "12.50") then Some 12.5%float else None.

Definition title (s : string) : string :=
  if decide (s = "food") then "Food" else s.

Definition before : state Expense.record :=
  State expenses (Date 2026 2 25) ["Lunch"; "12.50"; " food "] []
        expenses 0.

Definition after : state Expense.record :=
  (Expense.add_expense py_float title before).2.

End AddingLunch.

(** Sessions at the terminal, from the start of [main] to "exit". *)
Module Sessions.

(** The to-do list on a file with one task: a task is added, the tasks
    are viewed, number 1 is removed, number 7 is refused, a clear is
    declined, a wrong option is typed, a clear is confirmed, a task is
    added. *)
Definition todo : state string :=
  State [] (Date 2026 2 25)
        ["a"; " cook "; "view"; "b"; "1"; "B"; "7"; "d"; "n"; "x";
         "clear"; " Y"; "add"; "iron"; "e"]
        [] ["shop"] 0.

(** The habit tracker on the first of March, on a file with the habits
    "read" and "walk": a habit is added, "read" is marked twice, the
    habits are viewed, habit 2 is deleted, habit 9 is not found. *)
Definition habit : state Habit.record :=
  State [] (Date 2026 3 1)
        ["1"; "stretch"; "5"; "1"; "mark"; "1"; "3"; "2"; "2";
         "delete"; "9"; "6"]
        [] [read; walk] 0.

(** The expense tracker on a file with three expenses: an expense is
    added in the "Add Expense" menu, the report is viewed, expense 2 is
    deleted in the "Delete Expense" menu, the report is viewed again. *)
Definition expense : state Expense.record :=
  State [] (Date 2026 2 25)
        ["a"; "a"; "Lunch"; "12.50"; " food "; "b"; "c";
         "b"; "a"; "2"; "c"; "report"; "d"]
        [] expenses 0.

(** [str] on a float, for the amounts of these sessions. *)
Definition str_float (x : float) : string :=
  if decide (x = 12.5%float) then "12.5"
  else if decide (x = 10%float) then "10.0"
  else if decide (x = 5%float) then "5.0"
  else if decide (x = 20%float) then "20.0"
  else "?".

End Sessions.
(** * Proofs *)

(** Unfolding the calls of a function down to the state they leave. *)
Ltac run :=
  repeat (unfold mbind, mret, fmap, M_bind, M_ret, M_fmap, bind, ret, gets,
            set_mem, print, input, dump, date_today, raise;
          simpl).

(** ** The calendar *)

Lemma valid_spec d :
  valid d = true ↔
  1 ≤ year d ≤ 9999 ∧ 1 ≤ month d ≤ 12 ∧ 1 ≤ day d ≤ days_in_month (year d) (month d).
Proof. unfold valid, MINYEAR, MAXYEAR. rewrite !andb_true_iff, !Z.leb_le. lia. Qed.

Lemma month_cases m :
  1 ≤ m ≤ 12 →
  m = 1 ∨ m = 2 ∨ m = 3 ∨ m = 4 ∨ m = 5 ∨ m = 6 ∨
  m = 7 ∨ m = 8 ∨ m = 9 ∨ m = 10 ∨ m = 11 ∨ m = 12.
Proof. lia. Qed.

Ltac each_month H :=
  apply month_cases in H;
  repeat (destruct H as [H | H]); subst.

Lemma days_before_year_succ y :
  days_before_year (y + 1) =
  days_before_year y + 365 + (if is_leap y then 1 else 0).
Proof.
  unfold days_before_year, is_leap.
  replace (y + 1 - 1) with y by lia.
  destruct (Z.eqb_spec (y mod 4) 0), (Z.eqb_spec (y mod 100) 0),
    (Z.eqb_spec (y mod 400) 0); simpl; Z.div_mod_to_equations; lia.
Qed.

Lemma days_before_month_succ y m :
  1 ≤ m ≤ 11 →
  days_before_month y (m + 1) = days_before_month y m + days_in_month y m.
Proof.
  intros H. assert (H' : 1 ≤ m ≤ 12) by lia.
  each_month H'; try lia;
    unfold days_before_month, days_in_month; simpl;
    destruct (is_leap y); reflexivity.
Qed.

Lemma days_in_month_bounds y m : 1 ≤ m ≤ 12 → 28 ≤ days_in_month y m ≤ 31.
Proof.
  intros H. each_month H; unfold days_in_month; simpl;
    try destruct (is_leap y); simpl; lia.
Qed.

Lemma sub_one_day_some d d' :
  valid d = true → sub_one_day d = Some d' →
  valid d' = true ∧ toordinal d' = toordinal d - 1.
Proof.
  rewrite !valid_spec. intros (Hy & Hm & Hd). unfold sub_one_day, MINYEAR.
  destruct (Z.ltb_spec 1 (day d)).
  { intros [= <-]. unfold toordinal; simpl. lia. }
  destruct (Z.ltb_spec 1 (month d)).
  { intros [= <-]. unfold toordinal; simpl.
    pose proof (days_in_month_bounds (year d) (month d - 1) ltac:(lia)).
    pose proof (days_before_month_succ (year d) (month d - 1) ltac:(lia)) as E.
    replace (month d - 1 + 1) with (month d) in E by lia. lia. }
  destruct (Z.ltb_spec 1 (year d)); [|discriminate].
  intros [= <-]. unfold toordinal; simpl.
  pose proof (days_before_year_succ (year d - 1)) as E.
  replace (year d - 1 + 1) with (year d) in E by lia.
  replace (month d) with 1 by lia.
  unfold days_before_month, days_in_month; simpl.
  destruct (is_leap (year d - 1)); simpl; lia.
Qed.

Lemma sub_one_day_none d :
  valid d = true → sub_one_day d = None → d = Datetime.min.
Proof.
  rewrite valid_spec. intros (Hy & Hm & Hd). unfold sub_one_day, MINYEAR.
  destruct (Z.ltb_spec 1 (day d)); [discriminate|].
  destruct (Z.ltb_spec 1 (month d)); [discriminate|].
  destruct (Z.ltb_spec 1 (year d)); [discriminate|].
  intros _. destruct d as [y m dd]; simpl in *. unfold Datetime.min. f_equal; lia.
Qed.

Lemma days_before_year_mono y1 y2 :
  y1 ≤ y2 → days_before_year y1 ≤ days_before_year y2.
Proof.
  unfold days_before_year. intros H.
  pose proof (Z.div_le_mono (y1 - 1) (y2 - 1) 4 ltac:(lia) ltac:(lia)).
  pose proof (Z.div_le_mono (y1 - 1) (y2 - 1) 400 ltac:(lia) ltac:(lia)).
  assert ((y2 - 1) / 100 - (y1 - 1) / 100 ≤ y2 - y1)
    by (Z.div_mod_to_equations; lia).
  lia.
Qed.

Lemma toordinal_year_bounds d :
  valid d = true →
  days_before_year (year d) < toordinal d ≤ days_before_year (year d + 1).
Proof.
  rewrite valid_spec. intros (Hy & Hm & Hd).
  rewrite days_before_year_succ. unfold toordinal.
  destruct d as [y m a]; simpl in *.
  revert Hd. each_month Hm; unfold days_before_month, days_in_month; simpl;
    destruct (is_leap y); simpl; lia.
Qed.

Lemma toordinal_inj d1 d2 :
  valid d1 = true → valid d2 = true → toordinal d1 = toordinal d2 → d1 = d2.
Proof.
  intros V1 V2 E.
  pose proof (toordinal_year_bounds d1 V1) as B1.
  pose proof (toordinal_year_bounds d2 V2) as B2.
  assert (Ey : year d1 = year d2).
  { destruct (Z.lt_trichotomy (year d1) (year d2)) as [L | [L | L]]; [|done|].
    - pose proof (days_before_year_mono (year d1 + 1) (year d2) ltac:(lia)). lia.
    - pose proof (days_before_year_mono (year d2 + 1) (year d1) ltac:(lia)). lia. }
  apply valid_spec in V1 as (_ & Hm1 & Hd1), V2 as (_ & Hm2 & Hd2).
  destruct d1 as [y1 m1 a1], d2 as [y2 m2 a2]; simpl in *. subst y2.
  unfold toordinal in E; simpl in E.
  assert (m1 = m2 ∧ a1 = a2) as [-> ->]; [|done].
  revert Hd1 Hd2 E.
  each_month Hm1; each_month Hm2; unfold days_before_month, days_in_month; simpl;
    destruct (is_leap y1); simpl; lia.
Qed.

Lemma toordinal_min : toordinal Datetime.min = 1.
Proof. reflexivity. Qed.

Lemma toordinal_pos d : valid d = true → 1 ≤ toordinal d.
Proof.
  intros V. pose proof (toordinal_year_bounds d V).
  apply valid_spec in V as (Hy & _).
  pose proof (days_before_year_mono 1 (year d) ltac:(lia)).
  change (days_before_year 1) with 0 in *. lia.
Qed.

Lemma digit_val_digit n : digit_val (digit n) = Some (n mod 10).
Proof.
  unfold digit.
  assert (H : 0 ≤ n mod 10 < 10) by (apply Z.mod_pos_bound; lia).
  assert (n mod 10 = 0 ∨ n mod 10 = 1 ∨ n mod 10 = 2 ∨ n mod 10 = 3 ∨
          n mod 10 = 4 ∨ n mod 10 = 5 ∨ n mod 10 = 6 ∨ n mod 10 = 7 ∨
          n mod 10 = 8 ∨ n mod 10 = 9) as C by lia.
  repeat (destruct C as [C | C]); rewrite C; reflexivity.
Qed.

Lemma fromisoformat_isoformat d :
  valid d = true → fromisoformat (isoformat d) = Some d.
Proof.
  intros V. pose proof V as V'. apply valid_spec in V' as (Hy & Hm & Hd).
  pose proof (days_in_month_bounds (year d) (month d) Hm).
  unfold isoformat, fromisoformat. rewrite !digit_val_digit. simpl.
  assert (E : Date (((year d / 1000) mod 10) * 1000 + ((year d / 100) mod 10) * 100
                    + ((year d / 10) mod 10) * 10 + (year d) mod 10)
                   (((month d / 10) mod 10) * 10 + (month d) mod 10)
                   (((day d / 10) mod 10) * 10 + (day d) mod 10) = d).
  { destruct d as [y m a]; simpl in *. f_equal; Z.div_mod_to_equations; lia. }
  rewrite E, V. reflexivity.
Qed.


(** ** [list.remove], [list.pop] and the first record with an id *)

Lemma list_remove_first {A} `{EqDecision A} (x : A) (pre post : list A) :
  x ∉ pre → list_remove x (pre ++ x :: post) = Some (pre ++ post).
Proof.
  induction pre as [|y pre IH]; simpl; intros Hx.
  - rewrite decide_True; done.
  - apply not_elem_of_cons in Hx as [Hne Hx].
    rewrite decide_False by done. rewrite IH; done.
Qed.

Lemma list_find_first {A} (P : A → Prop) `{∀ x, Decision (P x)}
    (pre post : list A) (x : A) :
  Forall (λ y, ¬ P y) pre → P x →
  list_find P (pre ++ x :: post) = Some (length pre, x).
Proof.
  intros Hpre Hx. apply list_find_Some. split_and!.
  - apply list_lookup_middle; done.
  - done.
  - intros j y Hj Hlt. rewrite lookup_app_l in Hj by done.
    rewrite Forall_lookup in Hpre. eauto.
Qed.

Lemma list_find_none {A} (P : A → Prop) `{∀ x, Decision (P x)} (l : list A) :
  Forall (λ y, ¬ P y) l → list_find P l = None.
Proof. intros. apply list_find_None. done. Qed.

Lemma delete_middle' {A} (pre post : list A) (x : A) :
  delete (length pre) (pre ++ x :: post) = pre ++ post.
Proof. induction pre; simpl; [done | by f_equal]. Qed.

Lemma list_pop_in_range {A} (l : list A) (index : Z) :
  0 ≤ index < Z.of_nat (length l) →
  ∃ x, l !! Z.to_nat index = Some x
       ∧ list_pop l index = inr (x, delete (Z.to_nat index) l).
Proof.
  intros H. unfold list_pop.
  destruct (Z.ltb_spec index 0); [lia|].
  destruct (Z.leb_spec 0 index); [|lia].
  destruct (Z.ltb_spec index (Z.of_nat (length l))); [|lia]. simpl.
  assert (Hlt : (Z.to_nat index < length l)%nat) by lia.
  destruct (lookup_lt_is_Some_2 l (Z.to_nat index) Hlt) as [x Hx].
  exists x. by rewrite Hx.
Qed.

Lemma list_pop_beyond {A} (l : list A) (index : Z) :
  Z.of_nat (length l) ≤ index →
  list_pop l index
  = inl (if index <=? PY_SSIZE_T_MAX then IndexError else OverflowError).
Proof.
  intros H. unfold list_pop.
  destruct (Z.ltb_spec index 0); [lia|].
  destruct (Z.ltb_spec index (Z.of_nat (length l))); [lia|].
  rewrite andb_false_r.
  destruct (Z.ltb_spec index (- PY_SSIZE_T_MAX - 1));
    [unfold PY_SSIZE_T_MAX in *; lia|].
  rewrite orb_false_l.
  destruct (Z.ltb_spec PY_SSIZE_T_MAX index), (Z.leb_spec index PY_SSIZE_T_MAX);
    done || lia.
Qed.

(** An index below 0 counts from the end; [list.pop] has no other test
    of its own. *)
Lemma list_pop_negative {A} (l : list A) (index : Z) :
  - Z.of_nat (length l) ≤ index < 0 →
  list_pop l index = list_pop l (index + Z.of_nat (length l)).
Proof.
  intros H. unfold list_pop.
  destruct (Z.ltb_spec index 0); [|lia].
  destruct (Z.ltb_spec (index + Z.of_nat (length l)) 0); [lia|].
  destruct (Z.leb_spec 0 (index + Z.of_nat (length l))); [|lia].
  destruct (Z.ltb_spec (index + Z.of_nat (length l)) (Z.of_nat (length l)));
    [done | lia].
Qed.


(** ** Deleting by id *)

Lemma habit_delete_loop (i : Z) (s : state Habit.record) pre remaining :
  mem s = pre ++ remaining →
  Forall (λ r, Habit.id r ≠ i) pre →
  Habit.delete_loop i remaining s = removeById Habit.id i s.
Proof.
  revert pre. induction remaining as [|r remaining IH]; intros pre Hmem Hpre.
  - rewrite app_nil_r in Hmem. unfold removeById.
    rewrite Hmem, list_find_none by done. reflexivity.
  - simpl. destruct (decide (Habit.id r = i)) as [Hr | Hr].
    + unfold removeById. rewrite Hmem.
      rewrite list_find_first by done. run. rewrite Hmem.
      rewrite list_remove_first, delete_middle'; [done|].
      intros Hin. rewrite Forall_forall in Hpre. by apply (Hpre r).
    + apply (IH (pre ++ [r])).
      * by rewrite <- app_assoc.
      * apply Forall_app; split; [done | by constructor].
Qed.

Lemma expense_delete_loop (i : Z) (s : state Expense.record) pre remaining :
  mem s = pre ++ remaining →
  Forall (λ r, Expense.id r ≠ i) pre →
  Expense.delete_loop i remaining s = removeById Expense.id i s.
Proof.
  revert pre. induction remaining as [|r remaining IH]; intros pre Hmem Hpre.
  - rewrite app_nil_r in Hmem. unfold removeById.
    rewrite Hmem, list_find_none by done. reflexivity.
  - simpl. destruct (decide (Expense.id r = i)) as [Hr | Hr].
    + unfold removeById. rewrite Hmem.
      rewrite list_find_first by done. run. rewrite Hmem.
      rewrite list_remove_first, delete_middle'; [done|].
      intros Hin. rewrite Forall_forall in Hpre. by apply (Hpre r).
    + apply (IH (pre ++ [r])).
      * by rewrite <- app_assoc.
      * apply Forall_app; split; [done | by constructor].
Qed.

Lemma delete_habit_removeById (i : Z) (s : state Habit.record) :
  Habit.delete_habit i s = removeById Habit.id i s.
Proof.
  unfold Habit.delete_habit. run. by apply (habit_delete_loop i s []).
Qed.

Lemma delete_expense_removeById (i : Z) (s : state Expense.record) :
  Expense.delete_expense i s = removeById Expense.id i s.
Proof.
  unfold Expense.delete_expense. run. by apply (expense_delete_loop i s []).
Qed.

Lemma removeById_some {R} (rid : R → Z) i (s s' : state R) r :
  removeById rid i s = (Return (Some r), s') →
  ∃ pre post, mem s = pre ++ r :: post ∧ rid r = i
              ∧ Forall (λ x, rid x ≠ i) pre
              ∧ mem s' = pre ++ post ∧ persisted s s'.
Proof.
  unfold removeById.
  destruct (list_find _ (mem s)) as [[k x]|] eqn:Hf; [|done].
  intros [= -> <-]. apply list_find_Some in Hf as (Hk & Hx & Hpre).
  exists (take k (mem s)), (drop (S k) (mem s)). simpl. split_and!.
  - by rewrite take_drop_middle.
  - done.
  - apply Forall_forall. intros y Hy.
    apply list_elem_of_lookup in Hy as [j Hj].
    pose proof (lookup_lt_Some _ _ _ Hj) as Hlt. rewrite length_take in Hlt.
    rewrite lookup_take_lt in Hj by lia. apply (Hpre j); [done | lia].
  - by rewrite delete_take_drop.
  - by unfold persisted.
Qed.

(** C4. [delete_expense] and [delete_habit] are [removeById]: the first
    record with the id is taken out of the list, the list is written to
    the file and the record returned; when no record has the id the
    result is [None] and the state, file included, is the one before. *)
Theorem delete_by_id_is_removeById (i : Z) :
  (∀ s, Expense.delete_expense i s = removeById Expense.id i s)
  ∧ (∀ s, Habit.delete_habit i s = removeById Habit.id i s).
Proof.
  split; intros s;
    [apply delete_expense_removeById | apply delete_habit_removeById].
Qed.

(** ** Marking a habit complete *)

Lemma mark_loop_spec (habit_id : Z) (s : state Habit.record) pre remaining :
  mem s = pre ++ remaining →
  Forall (λ h, Habit.id h ≠ habit_id) pre →
  Habit.mark_loop habit_id (length pre) remaining s = markCompletion habit_id s.
Proof.
  revert pre. induction remaining as [|h remaining IH]; intros pre Hmem Hpre.
  - rewrite app_nil_r in Hmem. unfold markCompletion.
    rewrite Hmem, list_find_none by done. reflexivity.
  - simpl. destruct (decide (Habit.id h = habit_id)) as [Hh | Hh].
    + unfold markCompletion. rewrite Hmem.
      rewrite list_find_first by done. run.
      destruct (decide (isoformat (clock s) ∈ Habit.completed_dates h)); [done|].
      unfold Habit.append_completed, Habit.save_habits. run. rewrite Hmem.
      replace (alter _ (length pre) (pre ++ h :: remaining))
        with (<[length pre := Habit.Habit_ (Habit.id h) (Habit.name h)
                 (Habit.created_on h)
                 (Habit.completed_dates h ++ [isoformat (clock s)])]>
              (pre ++ h :: remaining)); [done|].
      rewrite alter_app_r_alt, insert_app_r_alt by lia.
      replace (length pre - length pre)%nat with 0%nat by lia. done.
    + replace (S (length pre)) with (length (pre ++ [h]))
        by (rewrite length_app; simpl; lia).
      apply IH.
      * by rewrite <- app_assoc.
      * apply Forall_app; split; [done | by constructor].
Qed.

Lemma mark_complete_spec (habit_id : Z) (s : state Habit.record) :
  Habit.mark_complete habit_id s = markCompletion habit_id s.
Proof.
  unfold Habit.mark_complete. run. by apply (mark_loop_spec habit_id s []).
Qed.

(** C5. When the first habit with the id already has today among its
    completion dates, [mark_complete] returns [False] ("already
    recorded", where a new mark returns [True]) and leaves the state as it
    was: no date is added and the file is not written.  And whatever the
    call does, completion dates without a repeated date stay so. *)
Theorem mark_complete_already_recorded
    (habit_id : Z) (s : state Habit.record) (k : nat) (h : Habit.record) :
  list_find (λ h, Habit.id h = habit_id) (mem s) = Some (k, h) →
  isoformat (clock s) ∈ Habit.completed_dates h →
  Habit.mark_complete habit_id s = (Return (Some false), s)
  ∧ (∀ s0 : state Habit.record,
       Forall (λ h, NoDup (Habit.completed_dates h)) (mem s0) →
       Forall (λ h, NoDup (Habit.completed_dates h))
              (mem (Habit.mark_complete habit_id s0).2)).
Proof.
  intros Hfind Hin. split.
  - rewrite mark_complete_spec. unfold markCompletion.
    rewrite Hfind. simpl. rewrite decide_True; done.
  - intros s0 Hnd. rewrite mark_complete_spec. unfold markCompletion.
    destruct (list_find _ (mem s0)) as [[k0 h0]|] eqn:Hf; [|done].
    simpl. destruct (decide (isoformat (clock s0) ∈ Habit.completed_dates h0))
      as [Hd | Hd]; [done|].
    simpl. apply list_find_Some in Hf as (Hk0 & _ & _).
    apply Forall_insert; [done|]. simpl.
    rewrite Forall_lookup in Hnd. specialize (Hnd _ _ Hk0).
    apply NoDup_app. split_and!; [done | | apply NoDup_singleton].
    intros x Hx Hx'. apply list_elem_of_singleton in Hx'. by subst.
Qed.

Lemma mark_complete_already_recorded_witness :
  Habit.mark_complete 2 march_first = (Return (Some false), march_first)
  ∧ (∀ s0 : state Habit.record,
       Forall (λ h, NoDup (Habit.completed_dates h)) (mem s0) →
       Forall (λ h, NoDup (Habit.completed_dates h))
              (mem (Habit.mark_complete 2 s0).2)).
Proof.
  apply (mark_complete_already_recorded 2 march_first 1%nat walk).
  - reflexivity.
  - apply list_elem_of_here.
Defined.

(** C10. [mark_complete] returns [None] exactly when no habit has the
    id, and then the state, with every habit's completion dates and the
    file, is the one before; when a habit has the id the result is [True]
    or [False]. *)
Theorem mark_complete_not_found (habit_id : Z) (s : state Habit.record) :
  (Forall (λ h, Habit.id h ≠ habit_id) (mem s) →
     Habit.mark_complete habit_id s = (Return None, s))
  ∧ (Exists (λ h, Habit.id h = habit_id) (mem s) →
     ∃ b, (Habit.mark_complete habit_id s).1 = Return (Some b)).
Proof.
  rewrite mark_complete_spec. unfold markCompletion. split.
  - intros H. rewrite list_find_none; done.
  - intros H. destruct (list_find _ (mem s)) as [[k h]|] eqn:Hf.
    + simpl. destruct (decide _); eauto.
    + apply list_find_None in Hf. apply Exists_exists in H as (x & Hx & Hid).
      rewrite Forall_forall in Hf. destruct (Hf x); done.
Qed.

Lemma mark_complete_not_found_witness :
  Habit.mark_complete 7 march_first = (Return None, march_first).
Proof.
  apply (proj1 (mark_complete_not_found 7 march_first)).
  repeat constructor; discriminate.
Defined.

(** ** What reading and printing leave alone *)

Lemma view_lines_printed_only i tasks (s : state string) :
  ∃ s', Todo.view_lines i tasks s = (Return tt, s') ∧ printed_only s s'.
Proof.
  revert i s. induction tasks as [|t tasks IH]; intros i s; simpl.
  - eexists; split; [done | by unfold printed_only, same_store].
  - run. destruct (IH (S i) (print (Text (pretty i +:+ ") " +:+ t)) s).2)
      as (s' & E & ((?&?&?&?)&?)). unfold print in E. simpl in E.
    rewrite E. eexists; split; [done|].
    unfold printed_only, same_store. simpl in *. split_and!; congruence.
Qed.

Lemma view_tasks_printed_only (s : state string) :
  ∃ s', Todo.view_tasks s = (Return tt, s') ∧ printed_only s s'.
Proof.
  unfold Todo.view_tasks. run. destruct (mem s) eqn:E.
  - eexists; split; [done|]. by unfold printed_only, same_store.
  - apply view_lines_printed_only.
Qed.

(** ** The to-do list *)

(** C9. [add_task] reads one line and strips it.  An empty name is
    refused: the tasks, the file and the count of writes stay as they
    were.  Any other name is appended to the tasks and the list is written
    to the file. *)
Theorem add_task_rejects_empty
    (tasks : list string) (today : date) (typed : string) (rest : list string)
    (out : list line) (file : list string) (n : nat) :
  Todo.add_task (State tasks today (typed :: rest) out file n) =
  if decide (strip typed = EmptyString) then
    (Return tt,
     State tasks today rest
       (out ++ [Text "Please enter new task: ";
                Text "No new task added, please try again."])
       file n)
  else
    (Return tt,
     State (tasks ++ [strip typed]) today rest
       (out ++ [Text "Please enter new task: ";
                Text (strip typed +:+ " has been added to your To-Do List.")])
       (tasks ++ [strip typed]) (S n)).
Proof.
  unfold Todo.add_task, Todo.save_tasks. run.
  destruct (decide (strip typed = EmptyString)); run; by rewrite <- app_assoc.
Qed.

(** C6.  Positional removal, for every list of tasks and every integer
    [index].  With the index within [0, len), [remove_task] takes the task
    at that position out, writes the list to the file and returns the
    task.  With the index not within [0, len) the removal is refused and
    the tasks and the file stay as they were: [main], which reads the
    number and is the one caller of [remove_task], tests the range and
    reports "Invalid number. Please try again." (for no task at all,
    "Your To-Do list is empty"); and [remove_task] itself, for an index of
    [len] or more, raises the [IndexError] of [list.pop], or its
    [OverflowError] beyond the index type, and leaves the state as it
    was.  ([remove_task] has no test of its own; an index below 0, which
    [list.pop] counts from the end, is never passed to it.) *)
Theorem remove_task_by_position
    (py_int : string → option Z) (s : state string) (index : Z) :
  let n := Z.of_nat (length (mem s)) in
  (0 ≤ index < n →
     ∃ removed, mem s !! Z.to_nat index = Some removed
       ∧ Todo.remove_task index s =
         (Return removed,
          State (delete (Z.to_nat index) (mem s)) (clock s) (stdin s) (stdout s)
                (delete (Z.to_nat index) (mem s)) (S (saves s))))
  ∧ (n ≤ index →
     Todo.remove_task index s
     = (Raise (if index <=? PY_SSIZE_T_MAX then IndexError else OverflowError),
        s))
  ∧ (∀ typed rest,
       mem s ≠ [] → stdin s = typed :: rest →
       py_int (strip typed) = Some (index + 1) →
       ¬ (0 ≤ index < n) →
       ∃ s', Todo.main_remove py_int s = (Return tt, s')
             ∧ mem s' = mem s ∧ disk s' = disk s ∧ saves s' = saves s
             ∧ last (stdout s') = Some (Text "Invalid number. Please try again."))
  ∧ (mem s = [] →
     Todo.main_remove py_int s
     = (Return tt, printed s [Text "Your To-Do list is empty"])).
Proof.
  intros n. subst n. split_and!.
  - intros H. destruct (list_pop_in_range (mem s) index H) as (x & Hx & Hpop).
    exists x. split; [done|]. unfold Todo.remove_task, Todo.save_tasks. run.
    rewrite Hpop. done.
  - intros H. unfold Todo.remove_task. run.
    rewrite list_pop_beyond; done.
  - intros typed rest Hne Hin Hint Hout. unfold Todo.main_remove. run.
    destruct (mem s) as [|t ts] eqn:Hmem; [done|].
    destruct (view_tasks_printed_only s)
      as (s1 & -> & ((Hm1 & Hc1 & Hd1 & Hs1) & Hi1)).
    rewrite Hi1, Hin. run. rewrite Hint. run. rewrite Hm1, Hmem.
    replace (index + 1 - 1) with index by lia.
    destruct ((0 <=? index) && (index <? _)) eqn:E.
    { apply andb_true_iff in E as [?%Z.leb_le ?%Z.ltb_lt].
      exfalso. lia. }
    eexists; split; [done|]. simpl. split_and!; try done.
    rewrite last_snoc. done.
  - intros Hmem. unfold Todo.main_remove. run. by rewrite Hmem.
Qed.

Lemma remove_task_by_position_witness :
  (∃ removed, mem two_tasks !! Z.to_nat 1 = Some removed
     ∧ Todo.remove_task 1 two_tasks =
       (Return removed,
        State (delete (Z.to_nat 1) (mem two_tasks)) (clock two_tasks)
              (stdin two_tasks) (stdout two_tasks)
              (delete (Z.to_nat 1) (mem two_tasks)) (S (saves two_tasks))))
  ∧ ∃ s', Todo.main_remove int_of_digits two_tasks = (Return tt, s')
          ∧ mem s' = mem two_tasks ∧ disk s' = disk two_tasks
          ∧ saves s' = saves two_tasks
          ∧ last (stdout s') = Some (Text "Invalid number. Please try again.").
Proof.
  split.
  - apply (proj1 (remove_task_by_position int_of_digits two_tasks 1)).
    simpl. lia.
  - apply (proj1 (proj2 (proj2
             (remove_task_by_position int_of_digits two_tasks 5))) "6" []).
    + discriminate.
    + reflexivity.
    + reflexivity.
    + simpl. lia.
Defined.

(** ** Adding a record *)

Section AddExpense.
Variable py_float : string → option float.
Variable title : string → string.

Lemma amount_loop_same_store pending (s s' : state Expense.record) r :
  Expense.amount_loop py_float pending s = (r, s') → same_store s s'.
Proof.
  revert s. induction pending as [|l pending IH]; intros s; simpl; run.
  - destruct (stdin s); intros [= <- <-]; by unfold same_store.
  - destruct (stdin s) as [|l' rest]; [intros [= <- <-]; by unfold same_store|].
    destruct (py_float (strip l')) as [a|].
    + destruct (a <? 0)%float.
      * intros H. apply IH in H. revert H. unfold same_store. simpl. tauto.
      * intros [= <- <-]. by unfold same_store.
    + intros H. apply IH in H. revert H. unfold same_store. simpl. tauto.
Qed.

Lemma category_loop_same_store pending (s s' : state Expense.record) r :
  Expense.category_loop title pending s = (r, s') → same_store s s'.
Proof.
  revert s. induction pending as [|l pending IH]; intros s; simpl; run.
  - destruct (stdin s); intros [= <- <-]; by unfold same_store.
  - destruct (stdin s) as [|l' rest]; [intros [= <- <-]; by unfold same_store|].
    destruct (decide (title (strip l') ∈ Expense.CATEGORIES)).
    + intros [= <- <-]. by unfold same_store.
    + intros H. apply IH in H. revert H. unfold same_store. simpl. tauto.
Qed.

(** When [add_expense] returns, the list in memory is the one before
    with a record at its end that carries the next id, and the file
    holds that list. *)
Lemma add_expense_returns (s s' : state Expense.record) :
  Expense.add_expense py_float title s = (Return tt, s') →
  ∃ e, mem s' = mem s ++ [e]
       ∧ Expense.id e = Expense.get_next_id (mem s)
       ∧ disk s' = mem s' ∧ saves s' = S (saves s).
Proof.
  unfold Expense.add_expense, Expense.save_to_expense. run.
  destruct (stdin s) as [|l rest]; [done|].
  destruct (Expense.amount_loop _ _ _) as [[a| |] s1] eqn:E1; try done.
  apply amount_loop_same_store in E1 as (Hm1 & Hc1 & Hd1 & Hs1).
  destruct (Expense.category_loop _ _ _) as [[c| |] s2] eqn:E2; try done.
  apply category_loop_same_store in E2 as (Hm2 & Hc2 & Hd2 & Hs2).
  simpl in *. intros [= <-]. simpl. rewrite Hm2, Hm1.
  eexists. split_and!; [done | done | done | congruence].
Qed.

End AddExpense.

Lemma add_habit_returns (s s' : state Habit.record) :
  Habit.add_habit s = (Return tt, s') →
  ∃ h, mem s' = mem s ++ [h]
       ∧ Habit.id h = Habit.get_next_id (mem s)
       ∧ disk s' = mem s' ∧ saves s' = S (saves s).
Proof.
  unfold Habit.add_habit, Habit.save_habits. run.
  destruct (stdin s) as [|l rest]; [done|]. intros [= <-]. simpl.
  eexists. split_and!; done.
Qed.

(** ** Every mutation is written to the file *)

(** C7. A call that changes the list in memory writes the whole list to
    the file before it returns: after an insert, a delete, a removal by
    position, a clear or a newly recorded completion the file holds the
    list in memory and was written once.  Clearing writes the empty list
    also when the list was empty already. *)
Theorem mutations_are_persisted
    (py_float : string → option float) (title : string → string) :
  (∀ s s', Expense.add_expense py_float title s = (Return tt, s') →
           persisted s s' ∧ ∃ e, mem s' = mem s ++ [e])
  ∧ (∀ s s', Habit.add_habit s = (Return tt, s') →
             persisted s s' ∧ ∃ h, mem s' = mem s ++ [h])
  ∧ (∀ s s', Todo.add_task s = (Return tt, s') → mem s' ≠ mem s →
             persisted s s')
  ∧ (∀ i s r s', Expense.delete_expense i s = (Return (Some r), s') →
                 persisted s s')
  ∧ (∀ i s r s', Habit.delete_habit i s = (Return (Some r), s') →
                 persisted s s')
  ∧ (∀ i s r s', Todo.remove_task i s = (Return r, s') → persisted s s')
  ∧ (∀ i s s', Habit.mark_complete i s = (Return (Some true), s') →
               persisted s s')
  ∧ (∀ s, ∃ s', Expense.clear_all_expense s = (Return tt, s')
                ∧ mem s' = [] ∧ disk s' = [] ∧ saves s' = S (saves s))
  ∧ (∀ s, ∃ s', Habit.clear_habits s = (Return tt, s')
                ∧ mem s' = [] ∧ disk s' = [] ∧ saves s' = S (saves s))
  ∧ (∀ s, ∃ s', Todo.clear_list s = (Return tt, s')
                ∧ mem s' = [] ∧ disk s' = [] ∧ saves s' = S (saves s)).
Proof.
  split_and!.
  - intros s s' H. apply add_expense_returns in H as (e & ? & ? & ? & ?).
    split; [by unfold persisted | eauto].
  - intros s s' H. apply add_habit_returns in H as (e & ? & ? & ? & ?).
    split; [by unfold persisted | eauto].
  - intros s s'. destruct s as [tasks today [|typed rest] out file n].
    + unfold Todo.add_task. run. done.
    + unfold Todo.add_task, Todo.save_tasks. run.
      destruct (decide (strip typed = EmptyString)); run; intros [= <-];
        simpl; [done|]. by unfold persisted.
  - intros i s r s'. rewrite delete_expense_removeById.
    intros H. apply removeById_some in H as (? & ? & ? & ? & ? & ? & ?). done.
  - intros i s r s'. rewrite delete_habit_removeById.
    intros H. apply removeById_some in H as (? & ? & ? & ? & ? & ? & ?). done.
  - intros i s r s'. unfold Todo.remove_task, Todo.save_tasks. run.
    destruct (list_pop (mem s) i) as [e | [x rest]]; [done|].
    intros [= <- <-]. by unfold persisted.
  - intros i s s'. rewrite mark_complete_spec. unfold markCompletion.
    destruct (list_find _ (mem s)) as [[k h]|]; [|done]. simpl.
    destruct (decide _); [done|]. intros [= <-]. by unfold persisted.
  - intros s. eexists. split; [reflexivity|]. done.
  - intros s. eexists. split; [reflexivity|]. done.
  - intros s. eexists. split; [reflexivity|]. done.
Qed.

Lemma mutations_are_persisted_witness :
  persisted habit_start (Habit.add_habit habit_start).2
  ∧ ∃ h, mem (Habit.add_habit habit_start).2 = mem habit_start ++ [h].
Proof.
  apply (proj1 (proj2 (mutations_are_persisted (λ _, None) (λ t, t)))
           habit_start).
  reflexivity.
Defined.

(** ** The next id *)

Lemma foldr_max_spec (i : Z) (rest : list Z) :
  foldr Z.max i rest ∈ i :: rest ∧ ∀ j, j ∈ i :: rest → j ≤ foldr Z.max i rest.
Proof.
  induction rest as [|x rest [IHin IHle]]; simpl.
  - split; [by left|]. intros j ->%list_elem_of_singleton. lia.
  - split.
    + destruct (Z.max_spec x (foldr Z.max i rest)) as [[_ ->] | [_ ->]].
      * apply elem_of_cons in IHin as [-> | ?]; [by left|].
        by right; right.
      * by right; left.
    + intros j Hj. apply elem_of_cons in Hj as [-> | Hj].
      * specialize (IHle i ltac:(by left)). lia.
      * apply elem_of_cons in Hj as [-> | Hj]; [lia|].
        specialize (IHle j ltac:(by right)). lia.
Qed.

Lemma fold_left_max_foldr (i : Z) (rest : list Z) :
  fold_left Z.max rest i = foldr Z.max i rest.
Proof.
  revert i. induction rest as [|x rest IH]; intros i; simpl; [done|].
  rewrite IH. clear IH. induction rest as [|y rest IH]; simpl; lia.
Qed.

Lemma highest_max (ids : list Z) (m : Z) :
  m ∈ ids → (∀ j, j ∈ ids → j ≤ m) → highest ids = Some m.
Proof.
  destruct ids as [|i rest]; [by intros ?%elem_of_nil|]. intros Hin Hle.
  destruct (foldr_max_spec i rest) as [Hin' Hle']. simpl. f_equal.
  specialize (Hle _ Hin'). specialize (Hle' _ Hin). lia.
Qed.

Lemma highest_spec (ids : list Z) (m : Z) :
  highest ids = Some m → m ∈ ids ∧ ∀ j, j ∈ ids → j ≤ m.
Proof.
  destruct ids as [|i rest]; [done|]. intros [= <-]. apply foldr_max_spec.
Qed.

Lemma nextId_highest (ids : list Z) :
  nextId ids = match highest ids with Some m => m + 1 | None => 1 end.
Proof. by destruct ids. Qed.

Lemma nextId_gt (ids : list Z) (j : Z) : j ∈ ids → j < nextId ids.
Proof.
  intros Hj. rewrite nextId_highest.
  destruct (highest ids) as [m|] eqn:E.
  - apply highest_spec in E as [_ Hle]. specialize (Hle _ Hj). lia.
  - destruct ids; [by apply elem_of_nil in Hj | done].
Qed.

Lemma nextId_snoc (ids : list Z) :
  nextId (ids ++ [nextId ids]) = nextId ids + 1.
Proof.
  rewrite (nextId_highest (ids ++ _)).
  rewrite (highest_max _ (nextId ids)); [done | | ].
  - apply elem_of_app. right. by left.
  - intros j [Hj | ->%list_elem_of_singleton]%elem_of_app; [|lia].
    apply nextId_gt in Hj. lia.
Qed.

Lemma nextId_delete (ids : list Z) (k : nat) (i : Z) :
  ids !! k = Some i → highest ids ≠ Some i →
  nextId (delete k ids) = nextId ids.
Proof.
  intros Hk Hne. rewrite !nextId_highest.
  destruct (highest ids) as [m|] eqn:E.
  - apply highest_spec in E as [Hin Hle].
    assert (Hm : m ≠ i) by congruence.
    rewrite <- (take_drop_middle _ _ _ Hk) in Hin, Hle.
    rewrite delete_take_drop.
    rewrite (highest_max _ m); [done | | ].
    + apply elem_of_app in Hin as [? | [-> | ?]%elem_of_cons];
        [apply elem_of_app; by left | done | apply elem_of_app; by right].
    + intros j Hj. apply Hle. apply elem_of_app.
      apply elem_of_app in Hj as [? | ?]; [by left | right; by right].
  - destruct ids; [done | done].
Qed.

Section Contract.
Context {R : Type} (rid : R → Z).
Variable insert : M R unit.
Variable remove : Z → M R (option R).
Variable get_next_id : list R → Z.

Hypothesis get_next_id_nextId : ∀ l, get_next_id l = nextId (rid <$> l).
Hypothesis insert_returns :
  ∀ s s', insert s = (Return tt, s') →
          ∃ r, mem s' = mem s ++ [r] ∧ rid r = get_next_id (mem s).
Hypothesis remove_removeById : ∀ i s, remove i s = removeById rid i s.

Lemma assigned_from_next (cs : list command) (s : state R) :
  spares_highest rid insert remove cs s = true →
  StronglySorted Z.lt (assigned rid insert remove cs s)
  ∧ Forall (λ a, get_next_id (mem s) ≤ a) (assigned rid insert remove cs s).
Proof.
  revert s. induction cs as [|[|i] cs IH]; intros s; simpl.
  - intros _. split; constructor.
  - destruct (insert s) as [[[]| |] s'] eqn:E; [|split; constructor..].
    intros Hcs. destruct (IH _ Hcs) as [Hs Hf].
    destruct (insert_returns _ _ E) as (r & Hmem & Hr).
    rewrite Hmem, last_snoc.
    assert (HN : get_next_id (mem s') = get_next_id (mem s) + 1).
    { rewrite Hmem, !get_next_id_nextId, fmap_app. simpl.
      rewrite Hr, get_next_id_nextId. apply nextId_snoc. }
    rewrite HN in Hf. split.
    + constructor; [done|]. eapply Forall_impl; [exact Hf|].
      simpl. intros. lia.
    + constructor; [lia|]. eapply Forall_impl; [exact Hf|].
      simpl. intros. lia.
  - intros [Hi Hcs]%andb_true_iff. apply bool_decide_eq_true in Hi.
    rewrite remove_removeById in Hcs |- *. unfold removeById in *.
    destruct (list_find _ (mem s)) as [[k x]|] eqn:Hf; simpl in *.
    + destruct (IH _ Hcs) as [Hs Hfa]. split; [done|]. simpl in Hfa.
      apply list_find_Some in Hf as (Hk & Hx & _).
      rewrite !get_next_id_nextId in *.
      rewrite list_fmap_delete, (nextId_delete _ _ i) in Hfa; [done | | done].
      by rewrite list_lookup_fmap, Hk, <- Hx.
    + by apply IH.
Qed.

Lemma contract_holds : next_id_contract rid insert remove get_next_id.
Proof.
  unfold next_id_contract. split_and!.
  - done.
  - intros l r Hr. rewrite get_next_id_nextId. apply nextId_gt.
    by apply list_elem_of_fmap_2.
  - done.
  - intros cs s Hcs. destruct (assigned_from_next cs s Hcs) as [Hs Hf].
    split; [done|]. intros a Ha r Hr.
    rewrite Forall_forall in Hf. specialize (Hf a Ha).
    assert (rid r < get_next_id (mem s)); [|lia].
    rewrite get_next_id_nextId. apply nextId_gt. by apply list_elem_of_fmap_2.
Qed.

End Contract.

Lemma habit_get_next_id (l : list Habit.record) :
  Habit.get_next_id l = nextId (Habit.id <$> l).
Proof. destruct l; simpl; [done|]. by rewrite fold_left_max_foldr. Qed.

Lemma expense_get_next_id (l : list Expense.record) :
  Expense.get_next_id l = nextId (Expense.id <$> l).
Proof. destruct l; simpl; [done|]. by rewrite fold_left_max_foldr. Qed.

(** C1, as the code has it.  [get_next_id] is 1 on the empty list and
    the highest id plus 1 otherwise, so above every id in the list, and an
    insert gives the new record [get_next_id] of the list at that moment.
    In a run of inserts and deletes in which no delete asks for the
    highest id of the store, the ids the inserts give are strictly
    increasing and above every id the store started with. *)
Theorem next_id_above_present :
  next_id_contract Habit.id Habit.add_habit Habit.delete_habit
                   Habit.get_next_id
  ∧ ∀ py_float title,
      next_id_contract Expense.id (Expense.add_expense py_float title)
                       Expense.delete_expense Expense.get_next_id.
Proof.
  split; [|intros py_float title]; apply contract_holds.
  - apply habit_get_next_id.
  - intros s s' H. apply add_habit_returns in H as (h & ? & ? & _). eauto.
  - intros i s. apply delete_habit_removeById.
  - apply expense_get_next_id.
  - intros s s' H. apply add_expense_returns in H as (h & ? & ? & _). eauto.
  - intros i s. apply delete_expense_removeById.
Qed.

Lemma next_id_above_present_witness :
  StronglySorted Z.lt
    (assigned Habit.id Habit.add_habit Habit.delete_habit
              [Insert; Insert; Remove 1; Insert] habit_start)
  ∧ ∀ a, a ∈ assigned Habit.id Habit.add_habit Habit.delete_habit
                      [Insert; Insert; Remove 1; Insert] habit_start →
         ∀ r, r ∈ mem habit_start → Habit.id r < a.
Proof.
  apply (proj2 (proj2 (proj2 (proj1 next_id_above_present)))
           [Insert; Insert; Remove 1; Insert] habit_start).
  reflexivity.
Defined.

(** C1 as stated fails: insert, insert, delete of id 2, insert gives the
    ids 1, 2 and 2 again, so the id the delete freed is given anew and the
    ids are not strictly increasing. *)
Lemma deleted_highest_id_is_reassigned :
  assigned Habit.id Habit.add_habit Habit.delete_habit
           [Insert; Insert; Remove 2; Insert] habit_start = [1; 2; 2]
  ∧ ¬ StronglySorted Z.lt [1; 2; 2].
Proof.
  split; [reflexivity|].
  intros H. inversion H as [|? ? H1 _]; subst.
  inversion H1 as [|? ? _ H2]; subst.
  inversion H2 as [|? ? H3 _]; subst. lia.
Qed.
(** ** The streak *)

Section Streak.
Variable dates : list date.
Hypothesis dates_valid : Forall (λ d, valid d = true) dates.

Let completed_set : gset date := list_to_set dates.

Lemma completed_on_elem (d : date) :
  valid d = true → completed_on dates (toordinal d) ↔ d ∈ dates.
Proof.
  intros V. split.
  - intros (d' & Hin & E). rewrite Forall_forall in dates_valid.
    by rewrite <- (toordinal_inj d' d (dates_valid _ Hin) V E).
  - intros Hin. by exists d.
Qed.

Lemma streak_loop_spec (bound streak : nat) (cur : date) (s : state Habit.record) :
  valid cur = true →
  (size (filter (λ d, (toordinal d ≤ toordinal cur)%Z) completed_set) < bound)%nat →
  (∃ n, Habit.streak_loop bound completed_set streak cur s
        = (Return (streak + n)%nat, s)
        ∧ is_streak dates cur n)
  ∨ (Habit.streak_loop bound completed_set streak cur s
     = (Raise OverflowError, s)
     ∧ ∀ k, 1 ≤ k ≤ toordinal cur → completed_on dates k).
Proof.
  revert streak cur. induction bound as [|bound IH]; intros streak cur V Hb;
    [lia|]. simpl.
  destruct (decide (cur ∈ completed_set)) as [Hin | Hin].
  - assert (Hcur : cur ∈ dates) by (by apply elem_of_list_to_set in Hin).
    destruct (sub_one_day cur) as [prev|] eqn:Hsub.
    + destruct (sub_one_day_some _ _ V Hsub) as [Vp Ep].
      destruct (IH (S streak) prev Vp) as [(n & Hr & Hf & Hpos & Hn) | [Hr Hall]].
      * assert (filter (λ d, toordinal d ≤ toordinal prev) completed_set
                ⊂ filter (λ d, toordinal d ≤ toordinal cur) completed_set)
          as Hsubset; [|apply subset_size in Hsubset; lia].
        split.
        -- intros d [Hd ?]%elem_of_filter. apply elem_of_filter. split; [lia|done].
        -- intros Hc. specialize (Hc cur). rewrite !elem_of_filter in Hc.
           destruct Hc as [Hc _]; [split; [lia | done] | lia].
      * left. exists (S n). split; [rewrite Hr; f_equal; f_equal; lia|].
        split_and!.
        -- intros i Hi. destruct (decide (i = 0)) as [-> | Hi0].
           ++ rewrite Z.sub_0_r. by apply completed_on_elem.
           ++ replace (toordinal cur - i) with (toordinal prev - (i - 1)) by lia.
              apply Hf. lia.
        -- lia.
        -- replace (toordinal cur - Z.of_nat (S n))
             with (toordinal prev - Z.of_nat n) by lia. done.
      * right. split; [done|]. intros k Hk.
        destruct (decide (k = toordinal cur)) as [-> | Hne].
        -- by apply completed_on_elem.
        -- apply Hall. lia.
    + right. split; [done|]. intros k Hk.
      apply sub_one_day_none in Hsub; [|done]. subst cur.
      rewrite toordinal_min in Hk. replace k with (toordinal Datetime.min)
        by (rewrite toordinal_min; lia).
      by apply completed_on_elem.
  - left. exists 0%nat. split; [by rewrite Nat.add_0_r|]. split_and!.
    + intros i Hi. lia.
    + pose proof (toordinal_pos _ V). lia.
    + simpl. rewrite Z.sub_0_r. rewrite completed_on_elem by done.
      intros Hc. apply Hin. by apply elem_of_list_to_set.
Qed.

Lemma get_streak_spec (habit : Habit.record) (s : state Habit.record) :
  valid (clock s) = true →
  Habit.completed_dates habit = isoformat <$> dates →
  (∃ n, Habit.get_streak habit s = (Return n, s)
        ∧ is_streak dates (clock s) n)
  ∨ (Habit.get_streak habit s = (Raise OverflowError, s)
     ∧ ∀ k, 1 ≤ k ≤ toordinal (clock s) → completed_on dates k).
Proof.
  intros V Hd. unfold Habit.get_streak. rewrite Hd.
  assert (mapM fromisoformat (isoformat <$> dates) = Some dates) as ->.
  { apply mapM_Some. apply Forall2_fmap_l, Forall_Forall2_diag.
    eapply Forall_impl; [exact dates_valid|]. apply fromisoformat_isoformat. }
  assert (size (filter (λ d, (toordinal d ≤ toordinal (clock s))%Z) completed_set)
          < S (size completed_set))%nat as Hb.
  { apply Nat.lt_succ_r, subseteq_size. intros d [_ ?]%elem_of_filter. done. }
  pose proof (streak_loop_spec _ 0%nat (clock s) s V Hb) as H.
  unfold mbind, M_bind, bind, date_today, gets. cbv beta iota. exact H.
Qed.

End Streak.

(** C2.  For completion dates that are days of the calendar and a
    clock that shows [today], [get_streak] returns the number [n] for
    which [today] and the [n - 1] days before it are recorded and the day
    before those is not; it returns 0 when [today] is not recorded, in
    particular for a habit with no completion dates.  The days are the
    days of the calendar: the day [i] days back has the day count of
    [today] less [i], over the ends of months and years.  The walk back
    ends at the first day with no completion, which is a day from
    0001-01-01, where the calendar starts, to [today]. *)
Theorem get_streak_counts_back_from_today
    (habit : Habit.record) (dates : list date) (s : state Habit.record) :
  Forall (λ d, valid d = true) dates →
  valid (clock s) = true →
  Habit.completed_dates habit = isoformat <$> dates →
  ((∃ k, 1 ≤ k ≤ toordinal (clock s) ∧ ¬ completed_on dates k) →
     ∃ n, Habit.get_streak habit s = (Return n, s)
          ∧ is_streak dates (clock s) n)
  ∧ (clock s ∉ dates → Habit.get_streak habit s = (Return 0%nat, s)).
Proof.
  intros Hv V Hd.
  pose proof (get_streak_spec dates Hv habit s V Hd) as Hspec.
  pose proof (toordinal_pos _ V) as Hpos.
  split.
  - intros (k & Hk & Hnot).
    destruct Hspec as [? | [_ Hall]]; [done|]. destruct Hnot. by apply Hall.
  - intros Hnot. destruct Hspec as [(n & Hr & Hf & _) | [_ Hall]].
    + destruct n as [|n]; [done|]. destruct Hnot.
      apply (completed_on_elem dates Hv); [done|].
      specialize (Hf 0 ltac:(lia)). by rewrite Z.sub_0_r in Hf.
    + destruct Hnot. apply (completed_on_elem dates Hv); [done|].
      apply Hall. lia.
Qed.

Lemma get_streak_counts_back_from_today_witness :
  ∃ n, Habit.get_streak walk march_first = (Return n, march_first)
       ∧ is_streak march_dates (clock march_first) n.
Proof.
  apply (proj1 (get_streak_counts_back_from_today walk march_dates march_first
                  ltac:(repeat constructor) eq_refl eq_refl)).
  exists 1. split; [vm_compute; split; discriminate|].
  intros (d & Hin & E). unfold march_dates in Hin.
  repeat (apply elem_of_cons in Hin as [-> | Hin]; [discriminate|]).
  by apply elem_of_nil in Hin.
Defined.

(** Where the calendar starts: with 0001-01-01 recorded and the clock on
    that day, the step to the day before leaves [date.min] and
    [get_streak] raises [OverflowError]. *)
Lemma get_streak_overflows_at_date_min :
  Habit.get_streak first_day_habit first_day = (Raise OverflowError, first_day)
  ∧ clock first_day ∈ [Datetime.min]
  ∧ mapM fromisoformat (Habit.completed_dates first_day_habit)
    = Some [Datetime.min].
Proof. split_and!; [reflexivity | apply list_elem_of_here | reflexivity]. Qed.

(** ** The monthly report *)

Lemma printed_nil {R} (s : state R) : printed s [] = s.
Proof. unfold printed. rewrite app_nil_r. by destruct s. Qed.

Lemma printed_printed {R} (s : state R) out1 out2 :
  printed (printed s out1) out2 = printed s (out1 ++ out2).
Proof. unfold printed. simpl. by rewrite app_assoc. Qed.

(** The loops of the report read the state and print; what they return
    and print does not depend on the state. *)
Lemma totals_loop_pure m y remaining totals t :
  ∃ r, ∀ s : state Expense.record,
    Expense.totals_loop m y remaining totals t s = (r, s).
Proof.
  revert totals t. induction remaining as [|e remaining IH]; intros totals t; simpl.
  - by eexists.
  - destruct (fromisoformat (Expense.created_on e)) as [d|]; [|by eexists].
    destruct ((month d =? m) && (year d =? y)); [|apply IH].
    destruct (totals !! Expense.category e); [apply IH | by eexists].
Qed.

Lemma print_loop_pure categories (totals : gmap string float) :
  ∃ r out, ∀ s : state Expense.record,
    Expense.print_loop categories totals s = (r, printed s out).
Proof.
  induction categories as [|c categories (r & out & IH)]; simpl.
  - exists (Return tt), []. intros s. by rewrite printed_nil.
  - destruct (totals !! c) as [v|].
    + exists r, (Money (c +:+ ": ") v EmptyString :: out). intros s. run.
      rewrite IH. unfold printed. simpl. by rewrite <- app_assoc.
    + exists (Raise KeyError), []. intros s. by rewrite printed_nil.
Qed.

Lemma view_monthly_report_pure (es : list Expense.record) (m y : Z) :
  ∃ r out, ∀ s : state Expense.record,
    mem s = es → month (clock s) = m → year (clock s) = y →
    Expense.view_monthly_report s = (r, printed s out).
Proof.
  destruct es as [|e es].
  - exists (Return tt), [Text "No expenses recorded yet."].
    intros s Hmem _ _. unfold Expense.view_monthly_report. run.
    by rewrite Hmem.
  - destruct (totals_loop_pure m y (e :: es)
                (list_to_map ((λ c, (c, 0%float)) <$> Expense.CATEGORIES))
                0%float) as [[[totals t]| |] Hloop].
    + destruct (print_loop_pure Expense.CATEGORIES totals) as (r & out & Hp).
      exists r, ([Header m y; Money "Total spent this month: " t newline]
                 ++ out).
      intros s Hmem Hm Hy. unfold Expense.view_monthly_report.
      unfold mbind, M_bind, bind, date_today, gets. cbv beta iota zeta.
      rewrite Hmem. cbv beta iota zeta. rewrite Hm, Hy, Hloop.
      cbv beta iota. unfold print. cbv beta iota.
      rewrite Hp. unfold printed. simpl. by rewrite <- !app_assoc.
    + exists (Raise e0), []. intros s Hmem Hm Hy.
      unfold Expense.view_monthly_report.
      unfold mbind, M_bind, bind, date_today, gets. cbv beta iota zeta.
      rewrite Hmem. cbv beta iota zeta. rewrite Hm, Hy, Hloop.
      by rewrite printed_nil.
    + exists Diverge, []. intros s Hmem Hm Hy.
      unfold Expense.view_monthly_report.
      unfold mbind, M_bind, bind, date_today, gets. cbv beta iota zeta.
      rewrite Hmem. cbv beta iota zeta. rewrite Hm, Hy, Hloop.
      by rewrite printed_nil.
Qed.

Lemma totals_loop_spec (today : date) (remaining : list Expense.record)
    (totals : gmap string float) (t : float) (s : state Expense.record) :
  Forall well_formed remaining →
  (∀ c, c ∈ Expense.CATEGORIES → is_Some (totals !! c)) →
  ∃ totals',
    Expense.totals_loop (month today) (year today) remaining totals t s
    = (Return (totals', total_from t (monthly today remaining)), s)
    ∧ ∀ c, totals' !! c
           = (λ v, total_from v (of_category c (monthly today remaining)))
             <$> totals !! c.
Proof.
  revert totals t.
  induction remaining as [|e remaining IH]; intros totals t Hwf Htot; simpl.
  - exists totals. split; [done|]. intros c. by destruct (totals !! c).
  - apply Forall_cons in Hwf as [[Hcat [d Hd]] Hwf].
    unfold monthly. rewrite Hd.
    destruct ((month d =? month today) && (year d =? year today)) eqn:Hin.
    + rewrite filter_cons_True by (unfold in_month; by rewrite Hd).
      destruct (Htot _ Hcat) as [v Hv]. rewrite Hv.
      destruct (IH (<[Expense.category e := (v + Expense.amount e)%float]> totals)
                   (t + Expense.amount e)%float Hwf) as (totals' & -> & Hl).
      { intros c Hc. destruct (decide (Expense.category e = c)) as [-> | Hne].
        - rewrite lookup_insert_eq. eauto.
        - rewrite lookup_insert_ne by done. by apply Htot. }
      exists totals'. split; [done|]. intros c. rewrite Hl. unfold of_category.
      destruct (decide (Expense.category e = c)) as [<- | Hne].
      * rewrite lookup_insert_eq, Hv. simpl. by rewrite filter_cons_True.
      * rewrite lookup_insert_ne by done. by rewrite filter_cons_False.
    + rewrite filter_cons_False
        by (unfold in_month; rewrite Hd, Hin; discriminate).
      by apply IH.
Qed.

Lemma print_loop_spec (categories : list string) (totals : gmap string float)
    (f : string → float) (s : state Expense.record) :
  (∀ c, c ∈ categories → totals !! c = Some (f c)) →
  Expense.print_loop categories totals s
  = (Return tt, printed s ((λ c, Money (c +:+ ": ") (f c) EmptyString) <$> categories)).
Proof.
  revert s. induction categories as [|c categories IH]; intros s Hf; simpl.
  - by rewrite printed_nil.
  - rewrite (Hf c) by (by left). run. rewrite IH.
    + unfold printed. simpl. by rewrite <- app_assoc.
    + intros c' Hc'. apply Hf. by right.
Qed.

Lemma initial_totals (c : string) :
  c ∈ Expense.CATEGORIES →
  (list_to_map ((λ c, (c, 0%float)) <$> Expense.CATEGORIES)
     : gmap string float) !! c = Some 0%float.
Proof.
  unfold Expense.CATEGORIES. intros Hc.
  repeat (apply elem_of_cons in Hc as [-> | Hc]; [by vm_compute|]).
  by apply elem_of_nil in Hc.
Qed.

(** C3, as the code has it.  On a list that is not empty, of expenses
    with a category of the enumeration and an ISO date,
    [view_monthly_report] prints the grand total and one total for every
    category, in the order of [CATEGORIES]; the totals add up the amounts
    of the expenses created in the month and year of the clock, so a
    category with none of them is printed with 0.0.  On the empty list it
    prints "No expenses recorded yet." and no total. *)
Theorem monthly_report_totals (s : state Expense.record) :
  (mem s ≠ [] → Forall well_formed (mem s) →
     Expense.view_monthly_report s
     = (Return tt, printed s (report (clock s) (mem s))))
  ∧ (∀ c, of_category c (monthly (clock s) (mem s)) = [] →
          total_from 0 (of_category c (monthly (clock s) (mem s))) = 0%float)
  ∧ (mem s = [] →
     Expense.view_monthly_report s
     = (Return tt, printed s [Text "No expenses recorded yet."])).
Proof.
  split_and!.
  - intros Hne Hwf. unfold Expense.view_monthly_report.
    unfold mbind, M_bind, bind, date_today, gets. cbv beta iota zeta.
    destruct (mem s) as [|e es] eqn:Hmem; [done|].
    destruct (totals_loop_spec (clock s) (e :: es)
                (list_to_map ((λ c, (c, 0%float)) <$> Expense.CATEGORIES))
                0%float s Hwf) as (totals & -> & Hl).
    { intros c Hc. rewrite initial_totals; eauto. }
    cbv beta iota. unfold print. cbv beta iota.
    rewrite (print_loop_spec _ _
               (λ c, total_from 0 (of_category c (monthly (clock s) (e :: es))))).
    + unfold printed, report. simpl. by rewrite <- !app_assoc.
    + intros c Hc. by rewrite Hl, initial_totals.
  - intros c ->. reflexivity.
  - intros Hmem. unfold Expense.view_monthly_report. run. by rewrite Hmem.
Qed.

Lemma monthly_report_totals_witness :
  Expense.view_monthly_report in_february
  = (Return tt, printed in_february (report (clock in_february) (mem in_february))).
Proof.
  apply (proj1 (monthly_report_totals in_february)).
  - discriminate.
  - repeat constructor; solve [ repeat constructor | by eexists ].
Defined.

(** C3 as stated fails on the empty list: the report has no line for
    any category and no grand total. *)
Lemma empty_report_has_no_totals :
  stdout (Expense.view_monthly_report no_expenses).2
  = [Text "No expenses recorded yet."]
  ∧ ¬ ∃ label amount tail,
        Money label amount tail ∈ stdout (Expense.view_monthly_report no_expenses).2.
Proof.
  split; [reflexivity|]. intros (label & amount & tail & H).
  apply list_elem_of_singleton in H. discriminate.
Qed.

(** C8, as the code has it.  [view_monthly_report] takes the date from
    the clock, and of the date the month and the year only: two calls on
    the same expenses with clocks in the same month of the same year end
    the same way and print the same lines. *)
Theorem report_follows_clock_month (s1 s2 : state Expense.record) :
  mem s1 = mem s2 →
  month (clock s1) = month (clock s2) →
  year (clock s1) = year (clock s2) →
  ∃ r out, Expense.view_monthly_report s1 = (r, printed s1 out)
           ∧ Expense.view_monthly_report s2 = (r, printed s2 out).
Proof.
  intros Hmem Hm Hy.
  destruct (view_monthly_report_pure (mem s1) (month (clock s1)) (year (clock s1)))
    as (r & out & H).
  exists r, out. split; [by apply H | apply H; congruence].
Qed.

Lemma report_follows_clock_month_witness :
  ∃ r out, Expense.view_monthly_report in_february = (r, printed in_february out)
           ∧ Expense.view_monthly_report later_in_february
             = (r, printed later_in_february out).
Proof.
  apply (report_follows_clock_month in_february later_in_february);
    reflexivity.
Defined.

(** C8 as stated fails: the caller hands over the expenses only, and the
    same expenses give other totals once the clock has moved to the next
    month. *)
Lemma report_changes_with_the_clock :
  mem in_february = mem in_march
  ∧ stdout (Expense.view_monthly_report in_february).2
    = report (Date 2026 2 25) expenses
  ∧ stdout (Expense.view_monthly_report in_march).2
    = report (Date 2026 3 25) expenses
  ∧ Money "Total spent this month: " 30 newline
    ∈ report (Date 2026 2 25) expenses
  ∧ Money "Total spent this month: " 0 newline
    ∈ report (Date 2026 3 25) expenses
  ∧ report (Date 2026 2 25) expenses ≠ report (Date 2026 3 25) expenses.
Proof.
  split_and!; [reflexivity | reflexivity | reflexivity | | | discriminate].
  - apply list_elem_of_further, list_elem_of_here.
  - apply list_elem_of_further, list_elem_of_here.
Qed.

(** ** The examples of the specification *)

Example toordinal_today : toordinal (Date 2026 2 25) = 739672.
Proof. reflexivity. Qed.

Example day_before_march_in_leap_year :
  sub_one_day (Date 2024 3 1) = Some (Date 2024 2 29).
Proof. reflexivity. Qed.

Example day_before_march :
  sub_one_day (Date 2026 3 1) = Some (Date 2026 2 28).
Proof. reflexivity. Qed.

Example day_before_new_year :
  sub_one_day (Date 2026 1 1) = Some (Date 2025 12 31).
Proof. reflexivity. Qed.

Example isoformat_example : isoformat (Date 2026 2 25) = "2026-02-25".
Proof. reflexivity. Qed.

Example fromisoformat_example :
  fromisoformat "2026-02-25" = Some (Date 2026 2 25)
  ∧ fromisoformat "2026-02-29" = None
  ∧ fromisoformat "25.02.2026" = None.
Proof. split_and!; reflexivity. Qed.

Example strip_example : strip "  buy milk  " = "buy milk".
Proof. reflexivity. Qed.

(** insert, insert, delete of id 1, insert: the ids are 1, 2 and 3. *)
Example ids_after_deleting_the_first :
  assigned Habit.id Habit.add_habit Habit.delete_habit
           [Insert; Insert; Remove 1; Insert] habit_start = [1; 2; 3].
Proof. reflexivity. Qed.

(** Today and the two days before it give 3, across the end of
    February; without today the streak is 0, as for no dates at all. *)
Example streak_of_three :
  (Habit.get_streak walk march_first).1 = Return 3%nat.
Proof. reflexivity. Qed.

Example streak_without_today :
  (Habit.get_streak
     (Habit.Habit_ 2 "walk" "2026-01-01" ["2026-02-28"; "2026-02-27"])
     march_first).1 = Return 0%nat.
Proof. reflexivity. Qed.

Example streak_of_nothing :
  (Habit.get_streak read march_first).1 = Return 0%nat.
Proof. reflexivity. Qed.

Example streak_over_new_year :
  (Habit.get_streak
     (Habit.Habit_ 2 "walk" "2025-01-01"
        ["2025-12-30"; "2026-01-01"; "2025-12-31"])
     (State [] (Date 2026 1 1) [] [] [] 0)).1 = Return 3%nat.
Proof. reflexivity. Qed.

(** Food 10 this month, Food 5 last month, Housing 20 this month. *)
Example report_example :
  report (Date 2026 2 25) expenses =
  [Header 2 2026;
   Money "Total spent this month: " 30 newline;
   Money "Housing: " 20 EmptyString;
   Money "Food: " 10 EmptyString;
   Money "Transportation: " 0 EmptyString;
   Money "Utilities: " 0 EmptyString;
   Money "Healthcare: " 0 EmptyString;
   Money "Savings: " 0 EmptyString;
   Money "Debt: " 0 EmptyString;
   Money "Shopping: " 0 EmptyString;
   Money "Entertainment: " 0 EmptyString].
Proof. reflexivity. Qed.

(** Marking the same day twice: the second call reports "already
    recorded" and the dates grow by one in all. *)
Example mark_twice :
  let s1 := (Habit.mark_complete 1 march_first).2 in
  (Habit.mark_complete 1 march_first).1 = Return (Some true)
  ∧ Habit.mark_complete 1 s1 = (Return (Some false), s1)
  ∧ Habit.completed_dates <$> mem s1 !! 0%nat = Some ["2026-03-01"].
Proof. split_and!; reflexivity. Qed.

Example delete_missing_id :
  Habit.delete_habit 7 march_first = (Return None, march_first).
Proof. reflexivity. Qed.

Example clear_empty_store :
  Todo.clear_list (State [] (Date 2026 2 25) [] [] [] 0)
  = (Return tt,
     State [] (Date 2026 2 25) [] [Text "Your To-Do list has been cleared."]
           [] 1).
Proof. reflexivity. Qed.

(** * The menus and the main loops *)

(** ** Calls that keep an invariant *)

Section Keeps.
Context {A : Type} (I : state A → Prop) (allowed : list exn).

(** The invariant speaks of the list, the clock and the file only. *)
Hypothesis store_only : ∀ s s', same_store s s' → I s → I s'.

Lemma keeps_ret {B} (b : B) : keeps I allowed (mret b : M A B).
Proof. intros s Hs. by split. Qed.

Lemma keeps_raise {B} (e : exn) :
  e ∈ allowed → keeps I allowed (raise e : M A B).
Proof. intros He s Hs. by split. Qed.

Lemma keeps_bind {B C} (m : M A B) (f : B → M A C) :
  keeps I allowed m → (∀ b, keeps I allowed (f b)) →
  keeps I allowed (m ≫= f).
Proof.
  intros Hm Hf s Hs. destruct (Hm s Hs) as [Hs' He].
  unfold mbind, M_bind, bind. destruct (m s) as [[b| e |] s']; simpl in *.
  - by apply Hf.
  - by split.
  - done.
Qed.

Lemma keeps_fmap {B C} (g : B → C) (m : M A B) :
  keeps I allowed m → keeps I allowed (g <$> m).
Proof.
  intros Hm s Hs. destruct (Hm s Hs) as [Hs' He].
  unfold fmap, M_fmap, bind, ret. destruct (m s) as [[b| e |] s']; by split.
Qed.

Lemma keeps_gets {B} (g : state A → B) : keeps I allowed (gets g).
Proof. intros s Hs. by split. Qed.

Lemma keeps_print (l : line) : keeps I allowed (print l).
Proof.
  intros s Hs. split; [|done]. eapply store_only; [|exact Hs].
  by unfold same_store.
Qed.

Lemma keeps_input (prompt : string) :
  EOFError ∈ allowed → keeps I allowed (input prompt).
Proof.
  intros He s Hs. unfold input. destruct (stdin s); simpl.
  - split; [|done]. eapply store_only; [|exact Hs]. by unfold same_store.
  - split; [|done]. eapply store_only; [|exact Hs]. by unfold same_store.
Qed.

Lemma keeps_input_choice (prompt : string) :
  EOFError ∈ allowed → keeps I allowed (input_choice prompt).
Proof. intros. by apply keeps_fmap, keeps_input. Qed.

End Keeps.


(** One step of a proof that a call keeps an invariant. *)
Ltac keeps_step :=
  lazymatch goal with
  | |- keeps _ _ (@mbind _ _ _ _ _ _) => apply keeps_bind; [|intros ?; cbv beta]
  | |- keeps _ _ (@fmap _ _ _ _ _ _) => apply keeps_fmap
  | |- keeps _ _ (@mret _ _ _ _) => apply keeps_ret
  | |- keeps _ _ (gets _) => apply keeps_gets
  | |- keeps _ _ (print _) => apply keeps_print; solve [eauto]
  | |- keeps _ _ (input _) => apply keeps_input; solve [eauto | set_solver]
  | |- keeps _ _ (input_choice _) =>
      apply keeps_input_choice; solve [eauto | set_solver]
  | |- keeps _ _ (raise _) => apply keeps_raise; solve [set_solver]
  | |- _ => assumption
  end.

Lemma in_sync_store_only {A} (s s' : state A) :
  same_store s s' → in_sync s → in_sync s'.
Proof. unfold same_store, in_sync. intros (?&?&?&?). congruence. Qed.

#[local] Hint Resolve in_sync_store_only : core.

(** ** To-Do_List_Application.py *)

Lemma view_lines_printed i tasks (s : state string) :
  Todo.view_lines i tasks s
  = (Return tt,
     printed s (imap (λ k task, Text (pretty (i + k)%nat +:+ ") " +:+ task)) tasks)).
Proof.
  revert i s. induction tasks as [|t tasks IH]; intros i s; simpl.
  - by rewrite printed_nil.
  - run. rewrite IH. unfold printed. simpl. rewrite <- app_assoc. simpl.
    rewrite Nat.add_0_r. do 3 f_equal. f_equal.
    apply imap_ext. intros k x _. simpl. do 3 f_equal. lia.
Qed.

(** X1. [view_tasks] prints the tasks in their order, one a line and
    numbered from 1, and changes nothing but the output; for no task it
    prints "Your To-Do list is empty". *)
Theorem view_tasks_numbers_from_one (s : state string) :
  Todo.view_tasks s
  = (Return tt,
     printed s
       match mem s with
       | [] => [Text "Your To-Do list is empty"]
       | _ => imap (λ k task, Text (pretty (S k) +:+ ") " +:+ task)) (mem s)
       end).
Proof.
  unfold Todo.view_tasks. run. destruct (mem s) as [|t ts] eqn:E; [done|].
  rewrite view_lines_printed. done.
Qed.

Lemma view_tasks_nonempty (s : state string) :
  mem s ≠ [] →
  Todo.view_tasks s
  = (Return tt,
     printed s (imap (λ k task, Text (pretty (S k) +:+ ") " +:+ task)) (mem s))).
Proof.
  intros Hne. unfold Todo.view_tasks. run.
  destruct (mem s) as [|t ts] eqn:E; [done|].
  rewrite view_lines_printed. done.
Qed.

Lemma remove_task_at (s : state string) (k : nat) (task : string) :
  mem s !! k = Some task →
  Todo.remove_task (Z.of_nat k) s
  = (Return task,
     State (delete k (mem s)) (clock s) (stdin s) (stdout s)
           (delete k (mem s)) (S (saves s))).
Proof.
  intros Hk. pose proof (lookup_lt_Some _ _ _ Hk) as Hlt.
  destruct (list_pop_in_range (mem s) (Z.of_nat k) ltac:(lia))
    as (x & Hx & Hpop).
  rewrite Nat2Z.id in Hx, Hpop. rewrite Hk in Hx. injection Hx as <-.
  unfold Todo.remove_task, Todo.save_tasks.
  unfold mbind, M_bind, bind, gets. cbv beta iota. rewrite Hpop. done.
Qed.

Lemma main_remove_in_range (py_int : string → option Z) (s : state string)
    (typed : string) (rest : list string) (k : nat) (task : string) :
  stdin s = typed :: rest →
  mem s !! k = Some task →
  py_int (strip typed) = Some (Z.of_nat (S k)) →
  Todo.main_remove py_int s
  = (Return tt,
     State (delete k (mem s)) (clock s) rest
       (stdout s
        ++ imap (λ i t, Text (pretty (S i) +:+ ") " +:+ t)) (mem s)
        ++ [Text "Which number would you like removed?";
            Text ("'" +:+ task +:+ "' has been removed.")])
       (delete k (mem s)) (S (saves s))).
Proof.
  intros Hin Hk Hint.
  assert (Hne : mem s ≠ []) by (intros E; by rewrite E in Hk).
  pose proof (lookup_lt_Some _ _ _ Hk) as Hlt.
  unfold Todo.main_remove.
  unfold mbind, M_bind, bind, gets. cbv beta iota.
  pose proof (view_tasks_nonempty s Hne) as Hview.
  destruct (mem s) as [|t ts] eqn:Hmem; [done|]. cbv beta iota.
  rewrite Hview. cbv beta iota.
  unfold fmap, M_fmap, bind, ret, input, printed. simpl. rewrite Hin. simpl.
  rewrite Hint.
  replace (Z.of_nat (S k) - 1) with (Z.of_nat k) by lia.
  match goal with
  | |- context [if ?c then _ else _] => assert (c = true) as ->
  end.
  { simpl in *. apply andb_true_iff. split; [apply Z.leb_le | apply Z.ltb_lt];
      rewrite ?Hmem; simpl; lia. }
  rewrite remove_task_at with (task := task)
    by (simpl; rewrite ?Hmem; done).
  unfold print. simpl. rewrite ?Hmem, <- !app_assoc. done.
Qed.

(** X2. In the "remove" branch of [main], typing the number that
    [view_tasks] shows next to a task removes that task: the task at
    position [k] is listed as number [k + 1], and number [k + 1] takes it
    out of the list, writes the file and reports the task by name. *)
Theorem typed_number_removes_the_listed_task
    (py_int : string → option Z) (s : state string)
    (typed : string) (rest : list string) (k : nat) (task : string) :
  stdin s = typed :: rest →
  mem s !! k = Some task →
  py_int (strip typed) = Some (Z.of_nat (S k)) →
  ∃ s', Todo.main_remove py_int s = (Return tt, s')
        ∧ mem s' = delete k (mem s)
        ∧ disk s' = mem s' ∧ saves s' = S (saves s)
        ∧ Text (pretty (S k) +:+ ") " +:+ task) ∈ stdout s'
        ∧ last (stdout s')
          = Some (Text ("'" +:+ task +:+ "' has been removed.")).
Proof.
  intros Hin Hk Hint.
  rewrite (main_remove_in_range py_int s typed rest k task Hin Hk Hint).
  eexists. split; [done|]. simpl. split_and!; try done.
  - apply elem_of_app. right. apply elem_of_app. left.
    apply list_elem_of_lookup. exists k.
    by rewrite list_lookup_imap, Hk.
  - change [Text "Which number would you like removed?";
            Text ("'" +:+ task +:+ "' has been removed.")]
      with ([Text "Which number would you like removed?"]
            ++ [Text ("'" +:+ task +:+ "' has been removed.")]).
    rewrite !app_assoc. apply last_snoc.
Qed.

Lemma typed_number_removes_the_listed_task_witness :
  ∃ s', Todo.main_remove int_of_digits
          (State ["shop"; "cook"] (Date 2026 2 25) ["2"] [] ["shop"; "cook"] 0)
        = (Return tt, s')
        ∧ mem s' = ["shop"]
        ∧ disk s' = mem s' ∧ saves s' = 1%nat
        ∧ Text "2) cook" ∈ stdout s'
        ∧ last (stdout s') = Some (Text "'cook' has been removed.").
Proof.
  apply (typed_number_removes_the_listed_task int_of_digits
           (State ["shop"; "cook"] (Date 2026 2 25) ["2"] [] ["shop"; "cook"] 0)
           "2" [] 1 "cook"); reflexivity.
Defined.

(** What the "remove" branch can do: leave the store alone, or take one
    task out and write the file. *)
Lemma main_remove_cases (py_int : string → option Z) (s : state string) :
  let r := Todo.main_remove py_int s in
  ends [EOFError] r.1
  ∧ (same_store s r.2
     ∨ ∃ k, (k < length (mem s))%nat ∧ mem r.2 = delete k (mem s)
            ∧ disk r.2 = mem r.2).
Proof.
  simpl. unfold Todo.main_remove.
  unfold mbind, M_bind, bind, gets. cbv beta iota.
  destruct (mem s) as [|t ts] eqn:Hmem.
  { simpl. split; [done|]. left. by unfold same_store. }
  destruct (view_tasks_printed_only s)
    as (s1 & -> & ((Hm1 & Hc1 & Hd1 & Hs1) & Hi1)). cbv beta iota.
  unfold fmap, M_fmap, bind, ret, input. simpl.
  destruct (stdin s1) as [|typed rest]; simpl.
  { split; [set_solver|]. left. by unfold same_store. }
  destruct (py_int (strip typed)) as [n|]; simpl.
  2:{ split; [done|]. left. by unfold same_store. }
  rewrite Hm1, Hmem.
  destruct ((0 <=? n - 1) && (n - 1 <? Z.of_nat (length (t :: ts)))) eqn:E.
  2:{ simpl. split; [done|]. left. by unfold same_store. }
  apply andb_true_iff in E as [?%Z.leb_le ?%Z.ltb_lt].
  assert (Hlt : (Z.to_nat (n - 1) < length (t :: ts))%nat) by lia.
  destruct (lookup_lt_is_Some_2 (t :: ts) (Z.to_nat (n - 1)) Hlt) as [x Hx].
  replace (n - 1) with (Z.of_nat (Z.to_nat (n - 1))) by lia.
  rewrite remove_task_at with (task := x)
    by (simpl; by rewrite ?Hm1, ?Hmem).
  simpl. rewrite ?Hm1, ?Hmem. split; [done|]. right.
  exists (Z.to_nat (n - 1)).
  split_and!; [done | done | done].
Qed.

(** X3. The "clear" branch of [main] asks first: only an answer that is
    "y" once stripped and put in lower case clears the tasks and writes
    the empty list; any other answer leaves the tasks, the file and the
    count of writes as they were. *)
Theorem clear_asks_for_confirmation
    (tasks : list string) (today : date) (typed : string) (rest : list string)
    (out : list line) (file : list string) (n : nat) :
  TodoCLI.main_clear (State tasks today (typed :: rest) out file n) =
  if decide (lower (strip typed) = "y") then
    (Return tt,
     State [] today rest
       (out ++ [Text "Are you sure you want to clear the To-Do list? You can't undo this action! Y/N: ";
                Text "Your To-Do list has been cleared."])
       [] (S n))
  else
    (Return tt,
     State tasks today rest
       (out ++ [Text "Are you sure you want to clear the To-Do list? You can't undo this action! Y/N: "])
       file n).
Proof.
  unfold TodoCLI.main_clear, input_choice, Todo.clear_list, Todo.save_tasks.
  run. destruct (decide (lower (strip typed) = "y")); run;
    by rewrite <- ?app_assoc.
Qed.

Lemma add_task_in_sync : keeps in_sync [EOFError] Todo.add_task.
Proof.
  intros s Hs. unfold Todo.add_task, Todo.save_tasks. run.
  destruct (stdin s) as [|typed rest]; simpl; [split; [done | set_solver]|].
  destruct (decide (strip typed = EmptyString)); run; by split.
Qed.

Lemma main_remove_in_sync py_int :
  keeps in_sync [EOFError] (Todo.main_remove py_int).
Proof.
  intros s Hs. destruct (main_remove_cases py_int s) as [He [Hsame | Hdel]].
  - split; [|done]. by eapply in_sync_store_only.
  - destruct Hdel as (k & _ & _ & Hd). by split.
Qed.

Lemma view_tasks_in_sync : keeps in_sync [EOFError] Todo.view_tasks.
Proof.
  intros s Hs. destruct (view_tasks_printed_only s) as (s' & -> & [Hsame _]).
  split; [|done]. by eapply in_sync_store_only.
Qed.

Lemma todo_main_clear_in_sync : keeps in_sync [EOFError] TodoCLI.main_clear.
Proof.
  intros s Hs. unfold TodoCLI.main_clear, input_choice, Todo.clear_list,
    Todo.save_tasks. run.
  destruct (stdin s) as [|typed rest]; simpl; [split; [done | set_solver]|].
  destruct (decide (lower (strip typed) = "y")); run; by split.
Qed.

Lemma todo_show_menu_keeps (I : state string → Prop) allowed :
  (∀ s s', same_store s s' → I s → I s') →
  keeps I allowed TodoCLI.show_menu.
Proof. intros HI. unfold TodoCLI.show_menu. repeat keeps_step. Qed.

Lemma todo_get_action_keeps (I : state string → Prop) allowed :
  (∀ s s', same_store s s' → I s → I s') → EOFError ∈ allowed →
  keeps I allowed TodoCLI.get_action.
Proof.
  intros HI He. unfold TodoCLI.get_action, TodoCLI.get_menu_choice.
  keeps_step; [keeps_step|]. destruct (TodoCLI.COMMANDS !! _); repeat keeps_step.
Qed.

Lemma todo_main_loop_in_sync py_int pending :
  keeps in_sync [EOFError] (TodoCLI.main_loop py_int pending).
Proof.
  induction pending as [|l pending IH]; cbn [TodoCLI.main_loop].
  - keeps_step; [apply todo_show_menu_keeps; eauto|].
    keeps_step; [apply todo_get_action_keeps; [eauto | set_solver]|].
    keeps_step.
  - keeps_step; [apply todo_show_menu_keeps; eauto|].
    keeps_step; [apply todo_get_action_keeps; [eauto | set_solver]|].
    repeat case_decide;
      first [ exact IH
            | keeps_step; [first [ apply add_task_in_sync
                                 | apply main_remove_in_sync
                                 | apply view_tasks_in_sync
                                 | apply todo_main_clear_in_sync ]
                          | exact IH ]
            | keeps_step ].
Qed.

(** X4. A session of the to-do list on a file that is missing or holds
    a list of tasks, whatever is typed: [main] ends normally (after "exit")
    or with [EOFError] (when the input ends first), and never with
    [IndexError] or [ValueError]; and when it ends the file holds the list
    in memory.  On a file that [json.load] cannot decode, [main] ends with
    the [ValueError] of [json.load] before it reads, prints or writes. *)
Theorem todo_session_stays_in_sync
    (py_int : string → option Z) (f : file) (s : state string) :
  (f ≠ Undecodable →
   ends [EOFError] (TodoCLI.main py_int f s).1
   ∧ in_sync (TodoCLI.main py_int f s).2)
  ∧ TodoCLI.main py_int Undecodable s = (Raise ValueError, s).
Proof.
  split; [|done]. intros Hf. unfold TodoCLI.main.
  unfold mbind, M_bind, bind, json_load, gets, set_mem, mret, M_ret, ret, dump.
  destruct f; [| done |]; cbv beta iota.
  - destruct (todo_main_loop_in_sync py_int (stdin s)
                (State [] (clock s) (stdin s) (stdout s) [] (S (saves s))))
      as [Hs He]; [done|]. by split.
  - destruct (todo_main_loop_in_sync py_int (stdin s)
                (State (disk s) (clock s) (stdin s) (stdout s) (disk s) (saves s)))
      as [Hs He]; [done|]. by split.
Qed.

Lemma todo_session_stays_in_sync_witness :
  ends [EOFError] (TodoCLI.main int_of_digits Holds Sessions.todo).1
  ∧ in_sync (TodoCLI.main int_of_digits Holds Sessions.todo).2.
Proof.
  apply (proj1 (todo_session_stays_in_sync int_of_digits Holds Sessions.todo)).
  discriminate.
Defined.

(** The session of the witness: four writes, and the task added last is
    the one left. *)
Example todo_session_run :
  (TodoCLI.main int_of_digits Holds Sessions.todo).1 = Return tt
  ∧ mem (TodoCLI.main int_of_digits Holds Sessions.todo).2 = ["iron"]
  ∧ disk (TodoCLI.main int_of_digits Holds Sessions.todo).2 = ["iron"]
  ∧ saves (TodoCLI.main int_of_digits Holds Sessions.todo).2 = 4%nat
  ∧ stdin (TodoCLI.main int_of_digits Holds Sessions.todo).2 = [].
Proof. vm_compute. done. Qed.

(** ** The ids of a store *)

Lemma nextId_fresh (ids : list Z) : NoDup ids → NoDup (ids ++ [nextId ids]).
Proof.
  intros Hnd. apply NoDup_app. split_and!; [done | | apply NoDup_singleton].
  intros x Hx ->%list_elem_of_singleton. apply nextId_gt in Hx. lia.
Qed.

Lemma removeById_ids {R} (rid : R → Z) (i : Z) (s : state R) :
  NoDup (rid <$> mem s) → NoDup (rid <$> mem (removeById rid i s).2).
Proof.
  intros Hnd. unfold removeById.
  destruct (list_find _ (mem s)) as [[k x]|]; [|done]. simpl.
  rewrite list_fmap_delete. eapply sublist_NoDup; [exact Hnd|].
  apply sublist_delete.
Qed.

Lemma markCompletion_ids (habit_id : Z) (s : state Habit.record) :
  Habit.id <$> mem (markCompletion habit_id s).2 = Habit.id <$> mem s.
Proof.
  unfold markCompletion.
  destruct (list_find _ (mem s)) as [[k h]|] eqn:Hf; [|done]. simpl.
  destruct (decide _); [done|]. simpl.
  apply list_find_Some in Hf as (Hk & _ & _).
  rewrite list_fmap_insert. simpl. apply list_insert_id.
  by rewrite list_lookup_fmap, Hk.
Qed.

Lemma add_habit_cases (s : state Habit.record) :
  (∃ e, (Habit.add_habit s).1 = Raise e ∧ e = EOFError
        ∧ same_store s (Habit.add_habit s).2)
  ∨ ((Habit.add_habit s).1 = Return tt
     ∧ ∃ typed,
         mem (Habit.add_habit s).2
         = mem s ++ [Habit.Habit_ (Habit.get_next_id (mem s)) (strip typed)
                       (isoformat (clock s)) []]
         ∧ head (stdin s) = Some typed
         ∧ clock (Habit.add_habit s).2 = clock s
         ∧ disk (Habit.add_habit s).2 = mem (Habit.add_habit s).2
         ∧ saves (Habit.add_habit s).2 = S (saves s)).
Proof.
  unfold Habit.add_habit, Habit.save_habits. run.
  destruct (stdin s) as [|typed rest]; simpl.
  - left. exists EOFError. by unfold same_store.
  - right. split; [done|]. by exists typed.
Qed.

(** X5. The four calls that change the habits keep the ids unique: when
    no two habits of the list share an id, none do after [add_habit],
    [delete_habit], [clear_habits] or [mark_complete], however the call
    ends. *)
Theorem habit_ids_stay_unique (s : state Habit.record) (habit_id : Z) :
  NoDup (Habit.id <$> mem s) →
  NoDup (Habit.id <$> mem (Habit.add_habit s).2)
  ∧ NoDup (Habit.id <$> mem (Habit.delete_habit habit_id s).2)
  ∧ NoDup (Habit.id <$> mem (Habit.clear_habits s).2)
  ∧ NoDup (Habit.id <$> mem (Habit.mark_complete habit_id s).2).
Proof.
  intros Hnd. split_and!.
  - destruct (add_habit_cases s) as [(e & _ & _ & (-> & _)) | (_ & typed & -> & _)];
      [done|].
    rewrite fmap_app. simpl. rewrite habit_get_next_id. by apply nextId_fresh.
  - rewrite delete_habit_removeById. by apply removeById_ids.
  - simpl. constructor.
  - rewrite mark_complete_spec, markCompletion_ids. done.
Qed.

Lemma habit_ids_stay_unique_witness :
  NoDup (Habit.id <$> mem (Habit.add_habit march_first).2)
  ∧ NoDup (Habit.id <$> mem (Habit.delete_habit 2 march_first).2)
  ∧ NoDup (Habit.id <$> mem (Habit.clear_habits march_first).2)
  ∧ NoDup (Habit.id <$> mem (Habit.mark_complete 2 march_first).2).
Proof.
  apply (habit_ids_stay_unique march_first 2).
  simpl. apply (bool_decide_unpack _). vm_compute. exact I.
Defined.

Lemma removeById_gone {R} (rid : R → Z) (i : Z) (s s' : state R) (r : R) :
  NoDup (rid <$> mem s) →
  removeById rid i s = (Return (Some r), s') →
  Forall (λ x, rid x ≠ i) (mem s')
  ∧ removeById rid i s' = (Return None, s').
Proof.
  intros Hnd H. apply removeById_some in H as (pre & post & Hmem & Hr & Hpre & Hmem' & _).
  assert (Hall : Forall (λ x, rid x ≠ i) (mem s')).
  { rewrite Hmem'. apply Forall_app. split; [done|].
    rewrite Hmem, fmap_app, fmap_cons in Hnd.
    apply NoDup_app in Hnd as (_ & _ & Hnd). apply NoDup_cons in Hnd as [Hnot _].
    apply Forall_forall. intros x Hx Hid. apply Hnot. rewrite Hr, <- Hid.
    by apply list_elem_of_fmap_2. }
  split; [done|]. unfold removeById. by rewrite list_find_none.
Qed.

(** X6. With unique ids, deleting a record removes its id from the
    store: after [delete_expense] or [delete_habit] has returned a record,
    no record of the list has the id, and deleting the id again returns
    [None] and changes nothing. *)
Theorem delete_removes_the_id (i : Z) :
  (∀ (s s' : state Expense.record) r,
     NoDup (Expense.id <$> mem s) →
     Expense.delete_expense i s = (Return (Some r), s') →
     Forall (λ x, Expense.id x ≠ i) (mem s')
     ∧ Expense.delete_expense i s' = (Return None, s'))
  ∧ (∀ (s s' : state Habit.record) r,
     NoDup (Habit.id <$> mem s) →
     Habit.delete_habit i s = (Return (Some r), s') →
     Forall (λ x, Habit.id x ≠ i) (mem s')
     ∧ Habit.delete_habit i s' = (Return None, s')).
Proof.
  split; intros s s' r Hnd.
  - rewrite !delete_expense_removeById. by apply removeById_gone.
  - rewrite !delete_habit_removeById. by apply removeById_gone.
Qed.

Lemma delete_removes_the_id_witness :
  Forall (λ x, Habit.id x ≠ 2) (mem (Habit.delete_habit 2 march_first).2)
  ∧ Habit.delete_habit 2 (Habit.delete_habit 2 march_first).2
    = (Return None, (Habit.delete_habit 2 march_first).2).
Proof.
  apply (proj2 (delete_removes_the_id 2) march_first _ walk).
  - simpl. apply (bool_decide_unpack _). vm_compute. exact I.
  - reflexivity.
Defined.

Lemma removeById_last {R} (rid : R → Z) (s : state R) (l : list R) (x : R) :
  mem s = l ++ [x] → Forall (λ y, rid y ≠ rid x) l →
  removeById rid (rid x) s
  = (Return (Some x),
     State l (clock s) (stdin s) (stdout s) l (S (saves s))).
Proof.
  intros Hmem Hl. unfold removeById. rewrite Hmem.
  rewrite list_find_first by done. simpl.
  rewrite delete_middle', app_nil_r. done.
Qed.

(** X7. Adding a habit and deleting the id it was given brings the list
    back: after [add_habit] has returned, [delete_habit] of
    [get_next_id] of the old list returns the new habit and leaves the old
    list, in memory and in the file. *)
Theorem add_then_delete_restores_the_list (s s1 : state Habit.record) :
  Habit.add_habit s = (Return tt, s1) →
  ∃ h, Habit.delete_habit (Habit.get_next_id (mem s)) s1
       = (Return (Some h),
          State (mem s) (clock s1) (stdin s1) (stdout s1) (mem s) (S (saves s1)))
       ∧ last (mem s1) = Some h.
Proof.
  intros H. apply add_habit_returns in H as (h & Hmem & Hid & _).
  exists h. rewrite delete_habit_removeById, <- Hid. split.
  - apply removeById_last; [done|]. apply Forall_forall. intros y Hy.
    rewrite Hid, habit_get_next_id.
    assert (Habit.id y < nextId (Habit.id <$> mem s)); [|lia].
    apply nextId_gt. by apply list_elem_of_fmap_2.
  - rewrite Hmem. apply last_snoc.
Qed.

Lemma add_then_delete_restores_the_list_witness :
  ∃ h, Habit.delete_habit (Habit.get_next_id (mem habit_start))
         (Habit.add_habit habit_start).2
       = (Return (Some h),
          State (mem habit_start) (clock (Habit.add_habit habit_start).2)
                (stdin (Habit.add_habit habit_start).2)
                (stdout (Habit.add_habit habit_start).2)
                (mem habit_start) (S (saves (Habit.add_habit habit_start).2)))
       ∧ last (mem (Habit.add_habit habit_start).2) = Some h.
Proof.
  apply (add_then_delete_restores_the_list habit_start). reflexivity.
Defined.

(** X8. Marking the same habit twice on one day: after [mark_complete]
    has returned [True], the same call on the state it left returns
    [False] and changes nothing more, so the day is recorded once. *)
Theorem mark_twice_records_once
    (habit_id : Z) (s s' : state Habit.record) :
  Habit.mark_complete habit_id s = (Return (Some true), s') →
  Habit.mark_complete habit_id s' = (Return (Some false), s').
Proof.
  rewrite !mark_complete_spec. unfold markCompletion.
  destruct (list_find _ (mem s)) as [[k h]|] eqn:Hf; [|done]. simpl.
  destruct (decide _) as [|Hnot]; [done|]. intros [= <-]. simpl.
  apply list_find_Some in Hf as (Hk & Hid & Hpre).
  pose proof (lookup_lt_Some _ _ _ Hk) as Hlt.
  set (h' := Habit.Habit_ _ _ _ _).
  assert (list_find (λ h0, Habit.id h0 = habit_id) (<[k:=h']> (mem s))
          = Some (k, h')) as ->.
  { apply list_find_Some. split_and!.
    - by apply list_lookup_insert_eq.
    - done.
    - intros j y Hj Hjk. rewrite list_lookup_insert_ne in Hj by lia. eauto. }
  simpl. rewrite decide_True; [done|].
  apply elem_of_app. right. apply list_elem_of_here.
Qed.

Lemma mark_twice_records_once_witness :
  Habit.mark_complete 1 (Habit.mark_complete 1 march_first).2
  = (Return (Some false), (Habit.mark_complete 1 march_first).2).
Proof.
  apply (mark_twice_records_once 1 march_first). reflexivity.
Defined.

(** ** More on the streak *)

Lemma streak_loop_bounds (bound : nat) (completed_set : gset date)
    (streak : nat) (cur : date) (s s' : state Habit.record) (n : nat) :
  Habit.streak_loop bound completed_set streak cur s = (Return n, s') →
  (streak ≤ n < streak + bound)%nat ∧ s' = s.
Proof.
  revert streak cur. induction bound as [|bound IH]; intros streak cur; simpl;
    [done|].
  destruct (decide (cur ∈ completed_set)).
  - destruct (sub_one_day cur) as [prev|]; [|done].
    intros H. apply IH in H as [? ->]. split; [lia | done].
  - intros [= <- <-]. split; [lia | done].
Qed.

Lemma size_list_to_set_le (l : list date) :
  (size (list_to_set l : gset date) ≤ length l)%nat.
Proof.
  induction l as [|x l IH].
  - done.
  - change (list_to_set (x :: l) : gset date)
      with ({[x]} ∪ list_to_set l : gset date).
    simpl. rewrite size_union_alt, size_singleton.
    assert (list_to_set l ∖ {[x]} ⊆ (list_to_set l : gset date)) as Hsub
      by (intros y [? _]%elem_of_difference; done).
    apply subseteq_size in Hsub. lia.
Qed.

(** X9. [get_streak] only reads: it leaves the state as it was, and the
    streak it returns is never more than the number of completion dates
    the habit has. *)
Theorem streak_is_at_most_the_dates
    (habit : Habit.record) (s s' : state Habit.record) (n : nat) :
  Habit.get_streak habit s = (Return n, s') →
  s' = s ∧ (n ≤ length (Habit.completed_dates habit))%nat.
Proof.
  unfold Habit.get_streak.
  destruct (mapM fromisoformat (Habit.completed_dates habit)) as [dates|] eqn:E;
    [|done].
  unfold mbind, M_bind, bind, date_today, gets. cbv beta iota zeta.
  intros H. apply streak_loop_bounds in H as [Hn ->]. split; [done|].
  apply length_mapM in E. pose proof (size_list_to_set_le dates). lia.
Qed.

Lemma streak_is_at_most_the_dates_witness :
  (Habit.get_streak walk march_first).2 = march_first
  ∧ (3 ≤ length (Habit.completed_dates walk))%nat.
Proof.
  apply (streak_is_at_most_the_dates walk march_first _ 3). reflexivity.
Defined.

Lemma isoformat_inj (d1 d2 : date) :
  valid d1 = true → valid d2 = true → isoformat d1 = isoformat d2 → d1 = d2.
Proof.
  intros V1 V2 E. apply fromisoformat_isoformat in V1, V2.
  rewrite E in V1. congruence.
Qed.

Lemma completed_on_first_day (dates : list date) :
  Forall (λ d, valid d = true) dates →
  completed_on dates 1 → Datetime.min ∈ dates.
Proof.
  intros Hv (d & Hd & E). rewrite Forall_forall in Hv.
  rewrite (toordinal_inj Datetime.min d); [done | done | by apply Hv |].
  by rewrite toordinal_min.
Qed.

(** A habit whose dates are days of the calendar other than 0001-01-01,
    with today among them, has a streak of 1 or more. *)
Lemma get_streak_positive (habit : Habit.record) (dates : list date)
    (s : state Habit.record) :
  Forall (λ d, valid d = true) dates →
  valid (clock s) = true →
  Habit.completed_dates habit = isoformat <$> dates →
  Datetime.min ∉ dates →
  clock s ∈ dates →
  ∃ n, Habit.get_streak habit s = (Return n, s) ∧ (1 ≤ n)%nat.
Proof.
  intros Hv V Hd Hmin Htoday.
  destruct (get_streak_spec dates Hv habit s V Hd)
    as [(n & Hr & Hf & _ & Hnot) | [_ Hall]].
  - exists n. split; [done|]. destruct n as [|n]; [|lia].
    destruct Hnot. simpl. rewrite Z.sub_0_r. by exists (clock s).
  - destruct Hmin. apply completed_on_first_day; [done|].
    apply Hall. pose proof (toordinal_pos _ V). lia.
Qed.

(** X10. Once a habit is marked, it has a streak.  For a habit whose
    completion dates are days of the calendar other than 0001-01-01 and a
    clock that shows a later day: after [mark_complete] on its id, whether
    it answers [True] or [False], [get_streak] of the habit returns 1 or
    more. *)
Theorem marked_habit_has_a_streak
    (habit_id : Z) (s : state Habit.record) (k : nat) (h0 : Habit.record)
    (dates : list date) :
  valid (clock s) = true →
  clock s ≠ Datetime.min →
  list_find (λ h, Habit.id h = habit_id) (mem s) = Some (k, h0) →
  Habit.completed_dates h0 = isoformat <$> dates →
  Forall (λ d, valid d = true) dates →
  Datetime.min ∉ dates →
  ∃ b s' h n,
    Habit.mark_complete habit_id s = (Return (Some b), s')
    ∧ mem s' !! k = Some h
    ∧ Habit.id h = habit_id
    ∧ Habit.get_streak h s' = (Return n, s')
    ∧ (1 ≤ n)%nat.
Proof.
  intros V Hclock Hf Hd Hv Hmin.
  rewrite mark_complete_spec. unfold markCompletion. rewrite Hf. simpl.
  apply list_find_Some in Hf as (Hk & Hid & _).
  destruct (decide (isoformat (clock s) ∈ Habit.completed_dates h0)) as [Hin | Hin].
  - assert (Htoday : clock s ∈ dates).
    { rewrite Hd in Hin. apply list_elem_of_fmap in Hin as (d & E & Hin).
      rewrite Forall_forall in Hv.
      by rewrite (isoformat_inj (clock s) d V (Hv _ Hin) E). }
    destruct (get_streak_positive h0 dates s Hv V Hd Hmin Htoday) as (n & Hr & Hn).
    exists false, s, h0, n. done.
  - set (h' := Habit.Habit_ _ _ _ _). set (s' := State _ _ _ _ _ _).
    assert (Hv' : Forall (λ d, valid d = true) (dates ++ [clock s]))
      by (apply Forall_app; split; [done | by constructor]).
    assert (Hd' : Habit.completed_dates h' = isoformat <$> (dates ++ [clock s]))
      by (simpl; by rewrite fmap_app, Hd).
    destruct (get_streak_positive h' (dates ++ [clock s]) s' Hv' V Hd')
      as (n & Hr & Hn).
    + intros [? | ?%list_elem_of_singleton]%elem_of_app; [done | congruence].
    + apply elem_of_app. right. apply list_elem_of_here.
    + exists true, s', h', n. split_and!; try done.
      simpl. apply list_lookup_insert_eq. by eapply lookup_lt_Some.
Qed.

Lemma marked_habit_has_a_streak_witness :
  ∃ b s' h n,
    Habit.mark_complete 1 march_first = (Return (Some b), s')
    ∧ mem s' !! 0%nat = Some h
    ∧ Habit.id h = 1
    ∧ Habit.get_streak h s' = (Return n, s')
    ∧ (1 ≤ n)%nat.
Proof.
  apply (marked_habit_has_a_streak 1 march_first 0 read []).
  - reflexivity.
  - discriminate.
  - reflexivity.
  - reflexivity.
  - constructor.
  - apply not_elem_of_nil.
Defined.

(** ** Habit_Tracker.py: the session *)



























Section HabitLoop.
Variable py_int : string → option Z.
Variable I : state Habit.record → Prop.
Variable allowed : list exn.

Hypothesis store_only : ∀ s s', same_store s s' → I s → I s'.
Hypothesis eof_allowed : EOFError ∈ allowed.
Hypothesis add_keeps : keeps I allowed Habit.add_habit.
Hypothesis delete_keeps : ∀ i, keeps I allowed (Habit.delete_habit i).
Hypothesis mark_keeps : ∀ i, keeps I allowed (Habit.mark_complete i).
Hypothesis clear_keeps : keeps I allowed Habit.clear_habits.
Hypothesis view_keeps : keeps I allowed HabitCLI.view_habits.







End HabitLoop.



(** The session of the witness: an add, a mark and a delete are written
    to the file; the habits left are "read", marked on the day of the
    clock, and "stretch". *)
Example habit_session_run :
  (HabitCLI.main int_of_digits Holds Sessions.habit).1 = Return tt
  ∧ mem (HabitCLI.main int_of_digits Holds Sessions.habit).2
    = [Habit.Habit_ 1 "read" "2026-01-01" ["2026-03-01"];
       Habit.Habit_ 3 "stretch" "2026-03-01" []]
  ∧ saves (HabitCLI.main int_of_digits Holds Sessions.habit).2 = 3%nat
  ∧ stdin (HabitCLI.main int_of_digits Holds Sessions.habit).2 = []
  ∧ stdout (HabitCLI.main int_of_digits Holds Sessions.habit).2 !! 48%nat
    = Some (Text "(2) walk - Streak: 3")
  ∧ stdout (HabitCLI.main int_of_digits Holds Sessions.habit).2 !! 63%nat
    = Some (Text "Removed: walk").
Proof. by vm_compute. Qed.

(** A date of the file that is no day of the calendar ends the session
    when the habits are viewed. *)
Example habit_session_wrong_day :
  (HabitCLI.main int_of_digits Holds
     (State [] (Date 2026 3 1) ["3"; "6"] []
            [Habit.Habit_ 1 "read" "2026-01-01" ["2026-02-30"]] 0)).1
  = Raise ValueError.
Proof. by vm_compute. Qed.



(** ** Expense_Tracker_CLI.py: adding, and the session *)

Section Adding.
Variable py_float : string → option float.
Variable title : string → string.

Lemma amount_loop_cases pending (s : state Expense.record) :
  same_store s (Expense.amount_loop py_float pending s).2
  ∧ match (Expense.amount_loop py_float pending s).1 with
    | Return a => (a <? 0)%float = false
    | Raise e => e = EOFError
    | Diverge => False
    end.
Proof.
  revert s. induction pending as [|l pending IH]; intros s; simpl; run.
  - destruct (stdin s); by unfold same_store.
  - destruct (stdin s) as [|l' rest]; [by unfold same_store|].
    destruct (py_float (strip l')) as [a|].
    + destruct (a <? 0)%float eqn:Ha; [|by unfold same_store].
      match goal with |- context [Expense.amount_loop _ _ ?s1] =>
        destruct (IH s1) as [Hs Hr] end.
      split; [|done]. revert Hs. unfold same_store. simpl. tauto.
    + match goal with |- context [Expense.amount_loop _ _ ?s1] =>
        destruct (IH s1) as [Hs Hr] end.
      split; [|done]. revert Hs. unfold same_store. simpl. tauto.
Qed.

Lemma category_loop_cases pending (s : state Expense.record) :
  same_store s (Expense.category_loop title pending s).2
  ∧ match (Expense.category_loop title pending s).1 with
    | Return c => c ∈ Expense.CATEGORIES
    | Raise e => e = EOFError
    | Diverge => False
    end.
Proof.
  revert s. induction pending as [|l pending IH]; intros s; simpl; run.
  - destruct (stdin s); by unfold same_store.
  - destruct (stdin s) as [|l' rest]; [by unfold same_store|].
    destruct (decide (title (strip l') ∈ Expense.CATEGORIES));
      [by unfold same_store|].
    match goal with |- context [Expense.category_loop _ _ ?s1] =>
      destruct (IH s1) as [Hs Hr] end.
    split; [|done]. revert Hs. unfold same_store. simpl. tauto.
Qed.

(** The two ways [add_expense] ends. *)
Lemma add_expense_cases (s : state Expense.record) :
  ((Expense.add_expense py_float title s).1 = Raise EOFError
   ∧ same_store s (Expense.add_expense py_float title s).2)
  ∨ ((Expense.add_expense py_float title s).1 = Return tt
     ∧ ∃ typed a c,
         mem (Expense.add_expense py_float title s).2
         = mem s ++ [Expense.Expense_ (Expense.get_next_id (mem s))
                       (strip typed) a c (isoformat (clock s)) []]
         ∧ head (stdin s) = Some typed
         ∧ (a <? 0)%float = false
         ∧ c ∈ Expense.CATEGORIES
         ∧ clock (Expense.add_expense py_float title s).2 = clock s
         ∧ disk (Expense.add_expense py_float title s).2
           = mem (Expense.add_expense py_float title s).2
         ∧ saves (Expense.add_expense py_float title s).2 = S (saves s)).
Proof.
  unfold Expense.add_expense, Expense.save_to_expense. run.
  destruct (stdin s) as [|typed rest]; simpl; [left; by unfold same_store|].
  match goal with |- context [Expense.amount_loop _ _ ?s1] =>
    destruct (amount_loop_cases rest s1) as [(Hm1 & Hc1 & Hd1 & Hs1) Hr1];
    destruct (Expense.amount_loop py_float rest s1) as [[a| e |] s2]
  end; simpl in *; [| subst e; left; by unfold same_store | done].
  match goal with |- context [Expense.category_loop _ ?p s2] =>
    destruct (category_loop_cases p s2) as [(Hm2 & Hc2 & Hd2 & Hs2) Hr2];
    destruct (Expense.category_loop title p s2) as [[c| e |] s3]
  end; simpl in *;
    [| subst e; left; unfold same_store; split_and!; congruence | done].
  right. split; [done|]. exists typed, a, c.
  split_and!; try done; congruence.
Qed.

End Adding.

(** X13. What [add_expense] stores.  When it returns, with the clock on a
    day of the calendar, the list is the one before with one expense at
    its end: under the next id, with the name as typed without the blanks
    around it, an amount that is not below zero, a category of
    [CATEGORIES], the day of the clock as its date and no notes; so the
    expense is one the monthly report can read. *)
Theorem add_expense_stores_a_readable_expense
    (py_float : string → option float) (title : string → string)
    (s : state Expense.record) :
  valid (clock s) = true →
  (Expense.add_expense py_float title s).1 = Return tt →
  ∃ e typed,
    mem (Expense.add_expense py_float title s).2 = mem s ++ [e]
    ∧ head (stdin s) = Some typed
    ∧ Expense.id e = Expense.get_next_id (mem s)
    ∧ Expense.name e = strip typed
    ∧ (Expense.amount e <? 0)%float = false
    ∧ Expense.category e ∈ Expense.CATEGORIES
    ∧ fromisoformat (Expense.created_on e) = Some (clock s)
    ∧ Expense.notes e = []
    ∧ well_formed e.
Proof.
  intros V Hr.
  destruct (add_expense_cases py_float title s)
    as [[Hr' _] | (_ & typed & a & c & Hmem & Hin & Ha & Hc & _)];
    [congruence|].
  eexists _, typed. split; [exact Hmem|].
  pose proof (fromisoformat_isoformat _ V) as Hday.
  split_and!; done.
Qed.

Lemma add_expense_stores_a_readable_expense_witness :
  ∃ e typed,
    mem AddingLunch.after = mem AddingLunch.before ++ [e]
    ∧ head (stdin AddingLunch.before) = Some typed
    ∧ Expense.id e = Expense.get_next_id (mem AddingLunch.before)
    ∧ Expense.name e = strip typed
    ∧ (Expense.amount e <? 0)%float = false
    ∧ Expense.category e ∈ Expense.CATEGORIES
    ∧ fromisoformat (Expense.created_on e) = Some (clock AddingLunch.before)
    ∧ Expense.notes e = []
    ∧ well_formed e.
Proof.
  apply (add_expense_stores_a_readable_expense
           AddingLunch.py_float AddingLunch.title AddingLunch.before).
  - reflexivity.
  - vm_compute. reflexivity.
Defined.

Lemma monthly_snoc (today : date) (es : list Expense.record)
    (e : Expense.record) :
  fromisoformat (Expense.created_on e) = Some today →
  monthly today (es ++ [e]) = monthly today es ++ [e].
Proof.
  intros He. unfold monthly. rewrite filter_app. f_equal.
  rewrite filter_cons_True; [done|].
  unfold in_month. rewrite He. apply andb_true_intro. split; apply Z.eqb_refl.
Qed.

Lemma total_from_snoc (start : float) (es : list Expense.record)
    (e : Expense.record) :
  total_from start (es ++ [e]) = (total_from start es + Expense.amount e)%float.
Proof. unfold total_from. by rewrite fold_left_app. Qed.

Lemma view_monthly_report_returns (s : state Expense.record) :
  mem s ≠ [] → Forall well_formed (mem s) →
  Expense.view_monthly_report s
  = (Return tt, printed s (report (clock s) (mem s))).
Proof.
  intros Hne Hwf. unfold Expense.view_monthly_report.
  unfold mbind, M_bind, bind, date_today, gets. cbv beta iota zeta.
  destruct (mem s) as [|e es] eqn:Hmem; [done|].
  destruct (totals_loop_spec (clock s) (e :: es)
              (list_to_map ((λ c, (c, 0%float)) <$> Expense.CATEGORIES))
              0%float s Hwf) as (totals & -> & Hl).
  { intros c Hc. rewrite initial_totals; eauto. }
  cbv beta iota. unfold print. cbv beta iota.
  rewrite (print_loop_spec _ _
             (λ c, total_from 0 (of_category c (monthly (clock s) (e :: es))))).
  + unfold printed, report. simpl. by rewrite <- !app_assoc.
  + intros c Hc. by rewrite Hl, initial_totals.
Qed.

(** X14. An expense just added counts in the report of the month.  On a
    list of expenses the report can read: when [add_expense] returns, the
    report that follows prints as the total of the month the total before
    with the amount of the new expense added to it, and the same for the
    category of the new expense; the totals of the other categories are the
    ones before. *)
Theorem added_expense_counts_in_the_report
    (py_float : string → option float) (title : string → string)
    (s : state Expense.record) :
  valid (clock s) = true →
  Forall well_formed (mem s) →
  (Expense.add_expense py_float title s).1 = Return tt →
  let s' := (Expense.add_expense py_float title s).2 in
  ∃ e,
    mem s' = mem s ++ [e]
    ∧ Expense.view_monthly_report s'
      = (Return tt,
         printed s'
           ([Header (month (clock s)) (year (clock s));
             Money "Total spent this month: "
               (total_from 0 (monthly (clock s) (mem s)) + Expense.amount e)
               newline]
            ++ ((λ c, Money (c +:+ ": ")
                        (let before :=
                           total_from 0 (of_category c (monthly (clock s) (mem s))) in
                         if decide (Expense.category e = c)
                         then (before + Expense.amount e)%float else before)
                        EmptyString)
                <$> Expense.CATEGORIES))).
Proof.
  intros V Hwf Hr s'.
  destruct (add_expense_cases py_float title s)
    as [[Hr' _] | (_ & typed & a & c & Hmem & _ & _ & Hc & Hclock & _)];
    [congruence|].
  fold s' in Hmem, Hclock. eexists. split; [exact Hmem|].
  set (e := Expense.Expense_ _ _ _ _ _ _) in *.
  assert (He : fromisoformat (Expense.created_on e) = Some (clock s))
    by (by apply fromisoformat_isoformat).
  rewrite view_monthly_report_returns.
  - unfold report. rewrite Hclock, Hmem, monthly_snoc, total_from_snoc by done.
    do 3 f_equal. apply list_fmap_ext. intros _ c' _. f_equal.
    unfold of_category. rewrite filter_app. cbv zeta.
    case_decide.
    + rewrite filter_cons_True by done. apply total_from_snoc.
    + rewrite filter_cons_False by done. by rewrite app_nil_r.
  - rewrite Hmem. by destruct (mem s).
  - rewrite Hmem. apply Forall_app. split; [done|].
    constructor; [|done]. split; [done | by rewrite He].
Qed.

Lemma added_expense_counts_in_the_report_witness :
  ∃ e,
    mem AddingLunch.after = mem AddingLunch.before ++ [e]
    ∧ Expense.view_monthly_report AddingLunch.after
      = (Return tt,
         printed AddingLunch.after
           ([Header 2 2026;
             Money "Total spent this month: "
               (total_from 0 (monthly (Date 2026 2 25) expenses)
                + Expense.amount e)
               newline]
            ++ ((λ c, Money (c +:+ ": ")
                        (let before :=
                           total_from 0
                             (of_category c (monthly (Date 2026 2 25) expenses)) in
                         if decide (Expense.category e = c)
                         then (before + Expense.amount e)%float else before)
                        EmptyString)
                <$> Expense.CATEGORIES))).
Proof.
  apply (added_expense_counts_in_the_report
           AddingLunch.py_float AddingLunch.title AddingLunch.before).
  - reflexivity.
  - repeat constructor; solve [ repeat constructor | by eexists ].
  - vm_compute. reflexivity.
Defined.








Section AddingKeeps.
Variable py_float : string → option float.
Variable title : string → string.



End AddingKeeps.








Section ExpenseLoop.
Variable py_int : string → option Z.
Variable py_float : string → option float.
Variable title : string → string.
Variable str_float : float → string.
Variable I : state Expense.record → Prop.
Variable allowed : list exn.

Hypothesis store_only : ∀ s s', same_store s s' → I s → I s'.
Hypothesis eof_allowed : EOFError ∈ allowed.
Hypothesis add_keeps : keeps I allowed (Expense.add_expense py_float title).
Hypothesis delete_keeps : ∀ i, keeps I allowed (Expense.delete_expense i).
Hypothesis clear_keeps : keeps I allowed Expense.clear_all_expense.
Hypothesis report_keeps : keeps I allowed Expense.view_monthly_report.










End ExpenseLoop.




(** The session of the witness: an add and a delete are written to the
    file, the expense added has the next id and the day of the clock, and
    the report counts it. *)
Example expense_session_run :
  let r := ExpenseCLI.main int_of_digits AddingLunch.py_float AddingLunch.title
             Sessions.str_float Holds Sessions.expense in
  r.1 = Return tt
  ∧ mem r.2
    = [Expense.Expense_ 1 "Groceries" 10 "Food" "2026-02-03" [];
       Expense.Expense_ 3 "Rent" 20 "Housing" "2026-02-01" [];
       Expense.Expense_ 4 "Lunch" 12.5 "Food" "2026-02-25" []]
  ∧ saves r.2 = 2%nat
  ∧ stdin r.2 = []
  ∧ stdout r.2 !! 28%nat
    = Some (Money "Total spent this month: " 42.5 newline)
  ∧ stdout r.2 !! 56%nat = Some (Text "Removed: Lunch").
Proof. by vm_compute. Qed.

(** A category of the file that is not in [CATEGORIES] ends the session
    when the report of its month is viewed. *)
Example expense_session_wrong_category :
  (ExpenseCLI.main int_of_digits AddingLunch.py_float AddingLunch.title
     Sessions.str_float Holds
     (State [] (Date 2026 2 25) ["c"; "d"] []
            [Expense.Expense_ 1 "Tea" 3 "Drinks" "2026-02-03" []] 0)).1
  = Raise KeyError.
Proof. by vm_compute. Qed.


